(** * jira-api-module: payload builders, error taxonomy, transport
      classification and name resolution, embedded from the Python sources.

    Layout of the development:
    - [PyStr]       Python [str] operations used by the code
                    ([lower], [join], f-string rendering of an [int]);
    - [Json]        JSON documents as Python sees them (dicts keep
                    insertion order), with the dict operations the code uses;
    - [Exceptions]  [jira_api/exceptions.py];
    - [IssueCreate], [IssueUpdate], [IssueTransitionRequest],
      [IssueAssignment], [User], [IssueStatus], [IssueTransition]
                    the classes of [jira_api/models] the code below uses;
    - [Eff]         the state-and-exception monad of the remote calls;
    - [Response], [Transport]
                    [JiraClient._make_request] and the issue-type resolution
                    of [jira_api/core/client.py];
    - [JiraClient], [UserService], [IssueService]
                    [services/user_service.py] and
                    [services/issue_service.py] over an injected client;
    - [ProjectVersion], [ProjectVersionCreate], [IssueType], [ProjectLead],
      [Project]     the classes of [jira_api/models/project.py];
    - [CoreClient]  the methods of the client that build typed records;
    - [UserLookup], [IssueByTypeName], [ProjectClient], [ProjectService]
                    the remaining service methods;
    - [Server]      the handlers of [jira_api/server.py]: over a client
                    that is there, and in [Server.Endpoint] from the request
                    on, with [get_jira_client()] and the closing of the
                    client;
    - [SpecText]    definitions that follow the words of the specification;
    - [Mock]        fixed connections and clients for the examples.          *)

From Stdlib Require Import ZArith List Bool Ascii String Lia.
From Stdlib Require Import Numbers.DecimalString.
Import ListNotations.

Open Scope list_scope.
Open Scope string_scope.

Set Warnings "-register-all".

(* ================================================================== *)
(** ** Python strings *)
(* ================================================================== *)

Module PyStr.

(** A [str] of the model is a sequence of characters, each one a code
    point below 256 (the first two blocks of Unicode, Basic Latin and
    Latin-1 Supplement); a character is not a byte of an encoding.

    [str.lower()] on one character.  Among the code points below 256 the
    upper-case letters are [A]-[Z] (65-90) and the accented capitals
    U+00C0-U+00DE (192-222) without the multiplication sign U+00D7 (215);
    the lower-case form of each is 32 places higher.  Every other
    character, the sharp s (223), the micro sign (181) and the y with
    diaeresis (255) included, is its own lower-case form. *)
Definition lower_char (c : ascii) : ascii :=
  let n := nat_of_ascii c in
  if orb (andb (Nat.leb 65 n) (Nat.leb n 90))
         (andb (andb (Nat.leb 192 n) (Nat.leb n 222)) (negb (Nat.eqb n 215)))
  then ascii_of_nat (n + 32)
  else c.

Fixpoint lower (s : string) : string :=
  match s with
  | EmptyString => EmptyString
  | String c s' => String (lower_char c) (lower s')
  end.

(** [sep.join(parts)] for a list of strings. *)
Fixpoint join (sep : string) (parts : list string) : string :=
  match parts with
  | [] => ""
  | [p] => p
  | p :: rest => p ++ sep ++ join sep rest
  end.

(** The characters of a string, each as a one-character string: what
    iterating over a [str] yields. *)
Fixpoint chars (s : string) : list string :=
  match s with
  | EmptyString => []
  | String c s' => String c EmptyString :: chars s'
  end.

(** [f"{n}"] for an [int]. *)
Definition of_int (n : Z) : string := NilZero.string_of_int (Z.to_int n).

(** [bool(s)]: a string is truthy when it is not empty. *)
Definition truthy (s : string) : bool :=
  match s with EmptyString => false | String _ _ => true end.

(** [bool(o)] for an [Optional[str]]: [None] and [""] are falsy. *)
Definition opt_truthy (o : option string) : bool :=
  match o with Some s => truthy s | None => false end.

(** [s.endswith(suffix)]. *)
Definition endswith (suffix s : string) : bool :=
  andb (Nat.leb (String.length suffix) (String.length s))
       (String.eqb
          (String.substring (String.length s - String.length suffix)
             (String.length suffix) s)
          suffix).

(** [sub in s] for two strings. *)
Fixpoint contains (sub s : string) : bool :=
  if String.prefix sub s then true
  else match s with
       | EmptyString => false
       | String _ s' => contains sub s'
       end.

End PyStr.

(* ================================================================== *)
(** ** JSON documents *)
(* ================================================================== *)

Module Json.

(** A decoded JSON document / a Python literal built by the code.  A
    [dict] is kept as the list of its items in insertion order. *)
Inductive json : Type :=
| JNull
| JBool (b : bool)
| JNum (n : Z)
| JStr (s : string)
| JArr (items : list json)
| JObj (items : list (string * json)).

Definition dict := list (string * json).

(** [d.get(k)] / [k in d]. *)
Fixpoint dict_get (k : string) (d : dict) : option json :=
  match d with
  | [] => None
  | (k', v) :: d' => if String.eqb k k' then Some v else dict_get k d'
  end.

Definition dict_mem (k : string) (d : dict) : bool :=
  match dict_get k d with Some _ => true | None => false end.

(** [d[k] = v]: replaces the value of an existing key in place, otherwise
    appends the item. *)
Fixpoint dict_set (k : string) (v : json) (d : dict) : dict :=
  match d with
  | [] => [(k, v)]
  | (k', v') :: d' =>
      if String.eqb k k' then (k, v) :: d' else (k', v') :: dict_set k v d'
  end.

Definition dict_keys (d : dict) : list string := map fst d.

(** [if field: d[k] = f(field)] for an [Optional[str]] field: the shape of
    every optional text field of the payload builders.  The test is the
    truthiness of the field, so [None] and [""] both skip the assignment. *)
Definition when_set (field : option string) (k : string)
    (f : string -> json) (d : dict) : dict :=
  match field with
  | Some s => if PyStr.truthy s then dict_set k (f s) d else d
  | None => d
  end.

(** [if items: d[k] = v] for a list: the empty list is falsy. *)
Definition when_nonempty {A : Type} (items : list A) (k : string)
    (v : json) (d : dict) : dict :=
  match items with
  | [] => d
  | _ :: _ => dict_set k v d
  end.

(** [d.get(k, default)]. *)
Definition dict_get_default (k : string) (default : json) (d : dict) : json :=
  match dict_get k d with Some v => v | None => default end.

(** [k in v] for a string [k] and an arbitrary decoded document [v]:
    key membership for a dict, element membership for a list, substring
    test for a string; [None] stands for the [TypeError] raised on the
    other values. *)
Definition py_contains (k : string) (v : json) : option bool :=
  match v with
  | JObj d => Some (dict_mem k d)
  | JArr items =>
      Some (existsb (fun x => match x with
                              | JStr s => String.eqb s k
                              | _ => false
                              end) items)
  | JStr s => Some (PyStr.contains k s)
  | _ => None
  end.

(** [v[k]] with a string subscript: defined on dicts holding the key;
    [None] stands for the [KeyError] or [TypeError] raised otherwise. *)
Definition py_getitem (v : json) (k : string) : option json :=
  match v with
  | JObj d => dict_get k d
  | _ => None
  end.

(** [v[k1][k2]...] with string subscripts, as in
    [payload["fields"]["description"]]; [None] when a subscript raises. *)
Fixpoint py_path (v : json) (keys : list string) : option json :=
  match keys with
  | [] => Some v
  | k :: rest =>
      match py_getitem v k with
      | Some v' => py_path v' rest
      | None => None
      end
  end.

(** [for x in v]: the elements of a list, the keys of a dict, the
    characters of a string; [None] stands for the [TypeError] raised on
    values that are not iterable. *)
Definition py_iter (v : json) : option (list json) :=
  match v with
  | JArr items => Some items
  | JObj d => Some (map JStr (dict_keys d))
  | JStr s => Some (map JStr (PyStr.chars s))
  | _ => None
  end.

(** The strings held by a list of documents; [None] as soon as one of
    them is not a string. *)
Fixpoint all_str (items : list json) : option (list string) :=
  match items with
  | [] => Some []
  | JStr s :: rest =>
      match all_str rest with
      | Some l => Some (s :: l)
      | None => None
      end
  | _ :: _ => None
  end.

(** [sep.join(v)]: [v] must be iterable and yield only strings; [None]
    stands for the [TypeError] raised otherwise. *)
Definition py_join (sep : string) (v : json) : option string :=
  match py_iter v with
  | Some items =>
      match all_str items with
      | Some parts => Some (PyStr.join sep parts)
      | None => None
      end
  | None => None
  end.

(** [bool(v)] for a decoded document: [None], [False], [0], the empty
    string, list and dict are falsy. *)
Definition truthy (v : json) : bool :=
  match v with
  | JNull => false
  | JBool b => b
  | JNum n => negb (Z.eqb n 0)
  | JStr s => PyStr.truthy s
  | JArr items => match items with [] => false | _ :: _ => true end
  | JObj items => match items with [] => false | _ :: _ => true end
  end.

End Json.

Import Json.

(* ================================================================== *)
(** ** jira_api/exceptions.py *)
(* ================================================================== *)

Module Exceptions.

(** The classes of the hierarchy rooted at [JiraAPIError]. *)
Inductive JiraClass : Type :=
| BaseAPIError
| AuthenticationError
| PermissionError
| NotFoundError
| ValidationError
| RateLimitError
| ServerError.

(** An instance: its class and the three attributes set by
    [JiraAPIError.__init__]. *)
Record JiraAPIError : Type := mkJiraAPIError {
  cls : JiraClass;
  message : string;
  status_code : option Z;
  response_data : dict
}.

(** [JiraAPIError(message, status_code, response_data)];
    [self.response_data = response_data or {}]. *)
Definition new_JiraAPIError (message : string) (status_code : option Z)
    (response_data : option dict) : JiraAPIError :=
  mkJiraAPIError BaseAPIError message status_code
    (match response_data with
     | Some ((_ :: _) as d) => d
     | _ => []
     end).

(** The subclasses call [super().__init__(message, status_code=...)] with a
    fixed code. *)
Definition JiraAuthenticationError (message : string) : JiraAPIError :=
  mkJiraAPIError AuthenticationError message (Some 401%Z) [].
Definition JiraPermissionError (message : string) : JiraAPIError :=
  mkJiraAPIError PermissionError message (Some 403%Z) [].
Definition JiraNotFoundError (message : string) : JiraAPIError :=
  mkJiraAPIError NotFoundError message (Some 404%Z) [].
Definition JiraValidationError (message : string) : JiraAPIError :=
  mkJiraAPIError ValidationError message (Some 400%Z) [].
Definition JiraRateLimitError (message : string) : JiraAPIError :=
  mkJiraAPIError RateLimitError message (Some 429%Z) [].
Definition JiraServerError (message : string) : JiraAPIError :=
  mkJiraAPIError ServerError message (Some 500%Z) [].

(** [JiraAPIError.__str__], inherited unchanged by every subclass.
    [if self.status_code:] is false for [None] and for [0]. *)
Definition str (e : JiraAPIError) : string :=
  match status_code e with
  | Some c =>
      if Z.eqb c 0 then "JIRA API Error: " ++ message e
      else "JIRA API Error (" ++ PyStr.of_int c ++ "): " ++ message e
  | None => "JIRA API Error: " ++ message e
  end.

(** Everything the modelled code can raise: the library's own errors, the
    built-in exceptions it raises itself, and any other exception that
    reaches it from a library it calls ([httpx.InvalidURL], say), kept by
    the name of its class and its text.  No [except] clause of the
    modelled code names a class of the last kind. *)
Inductive exn : Type :=
| Jira (e : JiraAPIError)
| ValueError (msg : string)
| KeyError (key : string)
| AttributeError
| TypeError
| OtherException (class_name text : string).

(** [isinstance(e, C)] for a class [C] of the hierarchy: every class
    derives directly from the base class. *)
Definition isinstance (e : exn) (c : JiraClass) : bool :=
  match e with
  | Jira j =>
      match c, cls j with
      | BaseAPIError, _ => true
      | AuthenticationError, AuthenticationError => true
      | PermissionError, PermissionError => true
      | NotFoundError, NotFoundError => true
      | ValidationError, ValidationError => true
      | RateLimitError, RateLimitError => true
      | ServerError, ServerError => true
      | _, _ => false
      end
  | _ => false
  end.

End Exceptions.

(* ================================================================== *)
(** ** jira_api/models *)
(* ================================================================== *)

Module IssueCreate.

Record t : Type := mk {
  project_id : string;
  summary : string;
  description : option string;
  issue_type_id : string;
  priority_id : option string;
  assignee_account_id : option string;
  reporter_account_id : option string;
  labels : list string
}.

(** The local [fields] of [to_jira_format] when it returns. *)
Definition fields (self : t) : dict :=
  let fields : dict :=
    [ ("project", JObj [("id", JStr (project_id self))]);
      ("summary", JStr (summary self));
      ("issuetype", JObj [("id", JStr (issue_type_id self))]) ] in
  let fields :=
    when_set (description self) "description"
      (fun d =>
         JObj [ ("type", JStr "doc");
                ("version", JNum 1);
                ("content",
                 JArr [ JObj [ ("type", JStr "paragraph");
                               ("content",
                                JArr [ JObj [ ("type", JStr "text");
                                              ("text", JStr d) ] ]) ] ]) ])
      fields in
  let fields :=
    when_set (priority_id self) "priority"
      (fun p => JObj [("id", JStr p)]) fields in
  let fields :=
    when_set (assignee_account_id self) "assignee"
      (fun a => JObj [("accountId", JStr a)]) fields in
  let fields :=
    when_set (reporter_account_id self) "reporter"
      (fun r => JObj [("accountId", JStr r)]) fields in
  when_nonempty (labels self) "labels" (JArr (map JStr (labels self))) fields.

Definition to_jira_format (self : t) : json :=
  JObj [("fields", JObj (fields self))].

End IssueCreate.

Module IssueUpdate.

Record t : Type := mk {
  summary : option string;
  description : option string;
  labels_add : list string;
  labels_remove : list string;
  priority_id : option string
}.

(** The local [update] of [to_jira_format] when it returns. *)
Definition update (self : t) : dict :=
  let update : dict := [] in
  let update :=
    when_set (summary self) "summary"
      (fun s => JArr [ JObj [("set", JStr s)] ]) update in
  let update :=
    when_set (description self) "description"
      (fun d =>
         JArr [ JObj [ ("set",
           JObj [ ("type", JStr "doc");
                  ("version", JNum 1);
                  ("content",
                   JArr [ JObj [ ("type", JStr "paragraph");
                                 ("content",
                                  JArr [ JObj [ ("type", JStr "text");
                                                ("text", JStr d) ] ]) ] ]) ]) ] ])
      update in
  let label_operations : list json :=
    (map (fun label => JObj [("add", JStr label)]) (labels_add self)
     ++ map (fun label => JObj [("remove", JStr label)]) (labels_remove self))%list in
  let update :=
    when_nonempty label_operations "labels" (JArr label_operations) update in
  when_set (priority_id self) "priority"
    (fun p => JArr [ JObj [("set", JObj [("id", JStr p)])] ]) update.

Definition to_jira_format (self : t) : json :=
  JObj [("update", JObj (update self))].

End IssueUpdate.

Module IssueTransitionRequest.

Record t : Type := mk {
  transition_id : string;
  comment : option string;
  resolution_name : option string
}.

Definition to_jira_format (self : t) : json :=
  let data : dict :=
    [ ("transition", JObj [("id", JStr (transition_id self))]) ] in
  let fields : dict :=
    when_set (resolution_name self) "resolution"
      (fun r => JObj [("name", JStr r)]) [] in
  let data := when_nonempty fields "fields" (JObj fields) data in
  let data :=
    when_set (comment self) "update"
      (fun c =>
         JObj [ ("comment",
           JArr [ JObj [ ("add",
             JObj [ ("body",
               JObj [ ("type", JStr "doc");
                      ("version", JNum 1);
                      ("content",
                       JArr [ JObj [ ("type", JStr "paragraph");
                                     ("content",
                                      JArr [ JObj [ ("type", JStr "text");
                                                    ("text", JStr c) ] ]) ] ]) ]) ]) ] ]) ])
      data in
  JObj data.

End IssueTransitionRequest.

Module IssueAssignment.

Record t : Type := mk { account_id : option string }.

Definition to_jira_format (self : t) : json :=
  match account_id self with
  | Some a =>
      if PyStr.truthy a then JObj [("accountId", JStr a)]
      else JObj [("accountId", JNull)]
  | None => JObj [("accountId", JNull)]
  end.

End IssueAssignment.

Module User.

Record t : Type := mk {
  account_id : string;
  email_address : option string;
  display_name : string;
  active : bool;
  avatar_urls : option (list (string * string));
  time_zone : option string;
  locale : option string
}.

End User.

Module IssueStatus.

Record t : Type := mk {
  id : string;
  name : string;
  description : string;
  category : option dict
}.

End IssueStatus.

Module IssueTransition.

Record t : Type := mk {
  id : string;
  name : string;
  to : IssueStatus.t;
  has_screen : bool
}.

End IssueTransition.

(* ================================================================== *)
(** ** Effects: calls that change the remote system and may raise *)
(* ================================================================== *)

Module Eff.

Import Exceptions.

Inductive result (A : Type) : Type :=
| Ok (a : A)
| Raise (e : exn).

Arguments Ok {A} a.
Arguments Raise {A} e.

(** A computation over the state [W] of the outside world (the remote
    system and the connection to it): it returns a value or raises, and
    leaves a new state. *)
Definition M (W A : Type) : Type := W -> result A * W.

Definition ret {W A : Type} (a : A) : M W A := fun w => (Ok a, w).

Definition raise {W A : Type} (e : exn) : M W A := fun w => (Raise e, w).

Definition bind {W A B : Type} (m : M W A) (k : A -> M W B) : M W B :=
  fun w =>
    match m w with
    | (Ok a, w') => k a w'
    | (Raise e, w') => (Raise e, w')
    end.

(** A pure step that may raise. *)
Definition lift {W A : Type} (r : result A) : M W A := fun w => (r, w).

Declare Scope eff_scope.
Delimit Scope eff_scope with eff.

Notation "x <- m ;; k" := (bind m (fun x => k))
  (at level 61, m at next level, right associativity) : eff_scope.
Notation "m ;;; k" := (bind m (fun _ => k))
  (at level 61, right associativity) : eff_scope.

End Eff.

Import Eff.
Open Scope eff_scope.

(* ================================================================== *)
(** ** jira_api/core/client.py *)
(* ================================================================== *)

Module Response.

(** What the code reads of an [httpx.Response]: the status, the raw body
    and the outcome of [response.json()] (the decoded document, or the text
    of the exception the decoder raised). *)
Record t : Type := mk {
  status_code : Z;
  content : string;
  json : string + Json.json
}.

End Response.

Module Transport.

Import Exceptions.

(** The arguments of [self._client.request].  The URL is
    [urljoin(self.base_url, endpoint)]; the base is fixed at construction,
    so a request is identified by its endpoint. *)
Record Request : Type := mkRequest {
  method : string;
  endpoint : string;
  params : option dict;
  json_data : option Json.json
}.

(** What [urljoin(self.base_url, endpoint)] and the call of
    [self._client.request] that follows it come to:
    - the call yields a response;
    - the call raises [httpx.RequestError] or one of its subclasses (DNS
      failure, timeout, connection reset) with some text;
    - something else is raised: by [urljoin], which runs before the [try]
      (a [ValueError] for an endpoint it cannot parse), or by the call
      itself with a class that does not derive from [httpx.RequestError]
      ([httpx.InvalidURL], a [TypeError] for a body the JSON encoder
      refuses).  The only handler of the [try] is
      [except httpx.RequestError], so such an exception is not caught. *)
Inductive outcome : Type :=
| Responded (r : Response.t)
| RequestError (text : string)
| Escaped (e : exn).

(** The message of the 400 and generic 4xx branches:
[[
    try:
        error_data = response.json()
        if "errorMessages" in error_data:
            error_msg = "; ".join(error_data["errorMessages"])
    except Exception:
        pass
]]
    Every exception keeps the default message. *)
Definition error_message (default : string) (r : Response.t) : string :=
  match Response.json r with
  | inl _ => default
  | inr error_data =>
      match py_contains "errorMessages" error_data with
      | Some true =>
          match py_getitem error_data "errorMessages" with
          | Some v =>
              match py_join "; " v with
              | Some msg => msg
              | None => default
              end
          | None => default
          end
      | _ => default
      end
  end.

(** The status handling of [_make_request], once a response has arrived. *)
Definition handle_response (r : Response.t) : result Json.json :=
  let sc := Response.status_code r in
  if (sc =? 401)%Z then
    Raise (Jira (JiraAuthenticationError "Invalid credentials or expired token"))
  else if (sc =? 403)%Z then
    Raise (Jira (JiraPermissionError "Insufficient permissions for this operation"))
  else if (sc =? 404)%Z then
    Raise (Jira (JiraNotFoundError "Resource not found"))
  else if (sc =? 400)%Z then
    Raise (Jira (JiraValidationError (error_message "Bad request" r)))
  else if (sc =? 429)%Z then
    Raise (Jira (JiraRateLimitError "Rate limit exceeded"))
  else if (sc >=? 500)%Z then
    Raise (Jira (JiraServerError ("Server error: " ++ PyStr.of_int sc)))
  else if (sc >=? 400)%Z then
    Raise (Jira (new_JiraAPIError
                   (error_message ("HTTP " ++ PyStr.of_int sc) r)
                   (Some sc) None))
  else if orb (sc =? 204)%Z (negb (PyStr.truthy (Response.content r))) then
    Ok (JObj [])
  else
    match Response.json r with
    | inr data => Ok data
    | inl e =>
        Raise (Jira (new_JiraAPIError
                       ("Failed to parse response JSON: " ++ e) None None))
    end.

(** The loop of [get_issue_type_id_by_name]:
[[
    for issue_type in issue_types:
        if issue_type.get("name", "").lower() == issue_type_name.lower():
            return issue_type["id"]
]]
    [Ok None] when the loop ends without returning. *)
Fixpoint find_issue_type (issue_type_name : string) (issue_types : list Json.json)
    : result (option Json.json) :=
  match issue_types with
  | [] => Ok None
  | JObj issue_type :: rest =>
      match dict_get_default "name" (JStr "") issue_type with
      | JStr n =>
          if String.eqb (PyStr.lower n) (PyStr.lower issue_type_name) then
            match dict_get "id" issue_type with
            | Some v => Ok (Some v)
            | None => Raise (KeyError "id")
            end
          else find_issue_type issue_type_name rest
      | _ => Raise AttributeError
      end
  | _ :: _ => Raise AttributeError
  end.

(** [[it.get("name", "") for it in issue_types]]. *)
Fixpoint available_types (issue_types : list Json.json) : result (list Json.json) :=
  match issue_types with
  | [] => Ok []
  | JObj it :: rest =>
      match available_types rest with
      | Ok l => Ok (dict_get_default "name" (JStr "") it :: l)
      | Raise e => Raise e
      end
  | _ :: _ => Raise AttributeError
  end.

Section Client.

Variable W : Type.

(** [self._client.request]: the remote system behind the connection. *)
Variable send : Request -> W -> outcome * W.

Definition _make_request (method endpoint : string) (params : option dict)
    (json_data : option Json.json) : M W Json.json :=
  fun w =>
    match send (mkRequest method endpoint params json_data) w with
    | (Responded response, w') => (handle_response response, w')
    | (RequestError e, w') =>
        (Raise (Jira (new_JiraAPIError ("Request failed: " ++ e) None None)), w')
    | (Escaped e, w') => (Raise e, w')
    end.

Definition update_issue (issue_key : string) (update_data : IssueUpdate.t)
    : M W unit :=
  _make_request "PUT" ("issue/" ++ issue_key) None
    (Some (IssueUpdate.to_jira_format update_data)) ;;;
  ret tt.

Definition assign_issue (issue_key : string) (assignment : IssueAssignment.t)
    : M W unit :=
  _make_request "PUT" ("issue/" ++ issue_key ++ "/assignee") None
    (Some (IssueAssignment.to_jira_format assignment)) ;;;
  ret tt.

Definition transition_issue (issue_key : string)
    (transition_request : IssueTransitionRequest.t) : M W unit :=
  _make_request "POST" ("issue/" ++ issue_key ++ "/transitions") None
    (Some (IssueTransitionRequest.to_jira_format transition_request)) ;;;
  ret tt.

(** [project_data.get("issueTypes", [])]; a document that is not a dict has
    no [get]. *)
Definition get_project_issue_types (project_key : string) : M W Json.json :=
  project_data <- _make_request "GET" ("project/" ++ project_key) None None ;;
  match project_data with
  | JObj d => ret (dict_get_default "issueTypes" (JArr []) d)
  | _ => raise AttributeError
  end.

Definition get_issue_type_id_by_name (project_key issue_type_name : string)
    : M W Json.json :=
  issue_types <- get_project_issue_types project_key ;;
  match py_iter issue_types with
  | None => raise TypeError
  | Some types =>
      found <- lift (find_issue_type issue_type_name types) ;;
      match found with
      | Some id => ret id
      | None =>
          names <- lift (available_types types) ;;
          match all_str names with
          | None => raise TypeError
          | Some available =>
              raise (Jira (JiraValidationError
                ("Issue type '" ++ issue_type_name ++ "' not found in project '"
                 ++ project_key ++ "'. "
                 ++ "Available types: " ++ PyStr.join ", " available)))
          end
      end
  end.

End Client.

End Transport.

(* ================================================================== *)
(** ** jira_api/services *)
(* ================================================================== *)

Module JiraClient.

(** The methods of the client that the services call.  A service receives
    its client at construction ([IssueService(client)]), so the services
    are stated over any implementation of this interface. *)
Record t (W Issue : Type) : Type := mk {
  search_users : string -> Z -> M W (list User.t);
  create_issue : IssueCreate.t -> M W Issue;
  update_issue : string -> IssueUpdate.t -> M W unit;
  assign_issue : string -> IssueAssignment.t -> M W unit;
  get_issue_transitions : string -> M W (list IssueTransition.t);
  transition_issue : string -> IssueTransitionRequest.t -> M W unit
}.

Arguments search_users {W Issue} _ _ _.
Arguments create_issue {W Issue} _ _.
Arguments update_issue {W Issue} _ _ _.
Arguments assign_issue {W Issue} _ _ _.
Arguments get_issue_transitions {W Issue} _ _.
Arguments transition_issue {W Issue} _ _ _.

End JiraClient.

Module UserService.

Section Service.

Context {W Issue : Type}.
Variable client : JiraClient.t W Issue.

(** [user.email_address and user.email_address.lower() == email.lower()] *)
Definition email_matches (email : string) (user : User.t) : bool :=
  match User.email_address user with
  | Some a => andb (PyStr.truthy a) (String.eqb (PyStr.lower a) (PyStr.lower email))
  | None => false
  end.

Definition get_user_by_email (email : string) : M W (option User.t) :=
  users <- JiraClient.search_users client email 1%Z ;;
  ret (find (email_matches email) users).

End Service.

End UserService.

Module IssueService.

Import Exceptions.

Section Service.

Context {W Issue : Type}.
Variable client : JiraClient.t W Issue.

Definition create_issue (project_id summary issue_type_id : string)
    (description priority_id assignee_email : option string)
    (labels : option (list string)) : M W Issue :=
  assignee_account_id <-
    match assignee_email with
    | Some email =>
        if PyStr.truthy email then
          assignee <- UserService.get_user_by_email client email ;;
          match assignee with
          | Some user => ret (Some (User.account_id user))
          | None => ret None
          end
        else ret None
    | None => ret None
    end ;;
  let issue_data :=
    IssueCreate.mk project_id summary description issue_type_id priority_id
      assignee_account_id None
      (match labels with Some ((_ :: _) as l) => l | _ => [] end) in
  JiraClient.create_issue client issue_data.

Definition update_issue_summary (issue_key summary : string) : M W unit :=
  JiraClient.update_issue client issue_key
    (IssueUpdate.mk (Some summary) None [] [] None).

Definition update_issue_description (issue_key description : string) : M W unit :=
  JiraClient.update_issue client issue_key
    (IssueUpdate.mk None (Some description) [] [] None).

Definition add_labels_to_issue (issue_key : string) (labels : list string)
    : M W unit :=
  JiraClient.update_issue client issue_key
    (IssueUpdate.mk None None labels [] None).

Definition remove_labels_from_issue (issue_key : string) (labels : list string)
    : M W unit :=
  JiraClient.update_issue client issue_key
    (IssueUpdate.mk None None [] labels None).

Definition assign_issue_by_email (issue_key assignee_email : string) : M W unit :=
  assignee <- UserService.get_user_by_email client assignee_email ;;
  match assignee with
  | None =>
      raise (ValueError ("User with email '" ++ assignee_email ++ "' not found"))
  | Some user =>
      JiraClient.assign_issue client issue_key
        (IssueAssignment.mk (Some (User.account_id user)))
  end.

Definition unassign_issue (issue_key : string) : M W unit :=
  JiraClient.assign_issue client issue_key (IssueAssignment.mk None).

Definition get_available_transitions (issue_key : string)
    : M W (list IssueTransition.t) :=
  JiraClient.get_issue_transitions client issue_key.

(** [transition.name.lower() == transition_name.lower()] *)
Definition name_matches (transition_name : string) (transition : IssueTransition.t)
    : bool :=
  String.eqb (PyStr.lower (IssueTransition.name transition))
             (PyStr.lower transition_name).

(** The loop sets [transition_id] to the id of the first transition whose
    name matches and breaks; [if not transition_id:] then tests the
    truthiness of what the loop left, so both [None] and an empty id raise. *)
Definition transition_issue_by_name (issue_key transition_name : string)
    (comment resolution_name : option string) : M W unit :=
  transitions <- get_available_transitions issue_key ;;
  let transition_id :=
    option_map IssueTransition.id
      (find (name_matches transition_name) transitions) in
  let not_found :=
    let available_names := map IssueTransition.name transitions in
    ValueError
      ("Transition '" ++ transition_name ++ "' not found. "
       ++ "Available transitions: " ++ PyStr.join ", " available_names) in
  match transition_id with
  | Some id =>
      if PyStr.truthy id then
        JiraClient.transition_issue client issue_key
          (IssueTransitionRequest.mk id comment resolution_name)
      else raise not_found
  | None => raise not_found
  end.

Definition transition_issue_by_id (issue_key transition_id : string)
    (comment resolution_name : option string) : M W unit :=
  JiraClient.transition_issue client issue_key
    (IssueTransitionRequest.mk transition_id comment resolution_name).

End Service.

End IssueService.

(* ================================================================== *)
(** ** jira_api/models/project.py *)
(* ================================================================== *)

(** The classes below hold parsed timestamps; the code only passes them
    on, so their type [datetime] stays a parameter. *)

Module ProjectVersion.

Record t (datetime : Type) : Type := mk {
  id : string;
  name : string;
  description : option string;
  archived : bool;
  released : bool;
  start_date : option datetime;
  release_date : option datetime;
  overdue : option bool;
  user_start_date : option string;
  user_release_date : option string;
  project_id : Z
}.

Arguments mk {datetime} _ _ _ _ _ _ _ _ _ _ _.
Arguments id {datetime} _.
Arguments name {datetime} _.
Arguments description {datetime} _.
Arguments archived {datetime} _.
Arguments released {datetime} _.
Arguments start_date {datetime} _.
Arguments release_date {datetime} _.
Arguments overdue {datetime} _.
Arguments user_start_date {datetime} _.
Arguments user_release_date {datetime} _.
Arguments project_id {datetime} _.

End ProjectVersion.

Module ProjectVersionCreate.

Record t : Type := mk {
  name : string;
  description : option string;
  project_id : Z;
  archived : bool;
  released : bool;
  start_date : option string;
  release_date : option string
}.

End ProjectVersionCreate.

Module IssueType.

Record t : Type := mk {
  id : string;
  name : string;
  description : string;
  icon_url : option string;
  subtask : bool
}.

End IssueType.

Module ProjectLead.

Record t : Type := mk {
  account_id : option string;
  display_name : option string;
  active : option bool;
  avatar_urls : option (list (string * string))
}.

End ProjectLead.

Module Project.

Record t (datetime : Type) : Type := mk {
  id : string;
  key : string;
  name : string;
  description : option string;
  lead : option ProjectLead.t;
  project_type_key : option string;
  avatar_urls : option (list (string * string));
  url : option string;
  issue_types : option (list IssueType.t);
  versions : option (list (ProjectVersion.t datetime))
}.

Arguments mk {datetime} _ _ _ _ _ _ _ _ _ _.
Arguments id {datetime} _.
Arguments key {datetime} _.
Arguments name {datetime} _.

End Project.

(* ================================================================== *)
(** ** jira_api/core/client.py: the methods that build typed records *)
(* ================================================================== *)

Module CoreClient.

Import Exceptions Transport.

(** Building a model from [data] unpacked into keyword arguments, under
    [except ValidationError as e: raise JiraAPIError(f"<context>{e}")].
    Only a dict can be unpacked into
    keyword arguments: any other document is a [TypeError], which the
    except clause does not catch.  What pydantic makes of the dict is the
    parameter [validate]: the record, or the text of its
    [ValidationError]. *)
Definition construct {A : Type} (validate : dict -> string + A)
    (context : string) (data : json) : result A :=
  match data with
  | JObj d =>
      match validate d with
      | inr a => Ok a
      | inl e => Raise (Jira (new_JiraAPIError (context ++ e) None None))
      end
  | _ => Raise TypeError
  end.

(** The list comprehension that builds a model from each element of
    [items]: the first element that fails ends the comprehension. *)
Fixpoint construct_all {A : Type} (validate : dict -> string + A)
    (context : string) (items : list json) : result (list A) :=
  match items with
  | [] => Ok []
  | x :: rest =>
      match construct validate context x with
      | Raise e => Raise e
      | Ok a =>
          match construct_all validate context rest with
          | Ok l => Ok (a :: l)
          | Raise e => Raise e
          end
      end
  end.

Section Client.

Variable W : Type.
Variable send : Request -> W -> outcome * W.

(** The issue record and the pydantic validation of each model. *)
Variable Issue : Type.
Variable validate_user : dict -> string + User.t.
Variable validate_issue : dict -> string + Issue.
Variable validate_transition : dict -> string + IssueTransition.t.

(** [f"{v}"] for a document that is not a string. *)
Variable py_format : json -> string.

Definition get_user (account_id : string) : M W User.t :=
  data <- _make_request W send "GET" "user"
            (Some [("accountId", JStr account_id)]) None ;;
  lift (construct validate_user "Failed to parse user data: " data).

Definition search_users (query : string) (max_results : Z)
    : M W (list User.t) :=
  data <- _make_request W send "GET" "user/search"
            (Some [("query", JStr query); ("maxResults", JNum max_results)])
            None ;;
  match py_iter data with
  | None => raise TypeError
  | Some items =>
      lift (construct_all validate_user
              "Failed to parse user search results: " items)
  end.

Definition get_issue (issue_key : string) : M W Issue :=
  data <- _make_request W send "GET" ("issue/" ++ issue_key) None None ;;
  lift (construct validate_issue "Failed to parse issue data: " data).

(** [issue_key = data.get("key")]; [if not issue_key: raise ...]; then
    [self.get_issue(issue_key)], whose f-string formats the key. *)
Definition create_issue (issue_data : IssueCreate.t) : M W Issue :=
  data <- _make_request W send "POST" "issue" None
            (Some (IssueCreate.to_jira_format issue_data)) ;;
  match data with
  | JObj d =>
      let issue_key := dict_get_default "key" JNull d in
      if negb (Json.truthy issue_key) then
        raise (Jira (new_JiraAPIError "Issue created but key not returned"
                       None None))
      else
        get_issue (match issue_key with
                   | JStr k => k
                   | v => py_format v
                   end)
  | _ => raise AttributeError
  end.

(** [data.get("transitions", [])] sits inside the try block, but only
    [ValidationError] is caught there. *)
Definition get_issue_transitions (issue_key : string)
    : M W (list IssueTransition.t) :=
  data <- _make_request W send "GET" ("issue/" ++ issue_key ++ "/transitions")
            None None ;;
  match data with
  | JObj d =>
      match py_iter (dict_get_default "transitions" (JArr []) d) with
      | None => raise TypeError
      | Some items =>
          lift (construct_all validate_transition
                  "Failed to parse transitions data: " items)
      end
  | _ => raise AttributeError
  end.

Definition get_issue_types : M W json :=
  _make_request W send "GET" "issuetype" None None.

(** The client as the services receive it. *)
Definition client : JiraClient.t W Issue :=
  JiraClient.mk W Issue
    search_users
    create_issue
    (Transport.update_issue W send)
    (Transport.assign_issue W send)
    get_issue_transitions
    (Transport.transition_issue W send).

End Client.

End CoreClient.

(* ================================================================== *)
(** ** jira_api/services: the methods that need more of the client *)
(* ================================================================== *)

Module UserLookup.

(** [UserService.get_user_by_id] and [UserService.get_user_by_identifier];
    [get_user] is the client's method of that name. *)
Section Service.

Context {W Issue : Type}.
Variable client : JiraClient.t W Issue.
Variable get_user : string -> M W User.t.

Definition get_user_by_id (account_id : string) : M W User.t :=
  get_user account_id.

(** [try: return self.get_user_by_id(identifier)]
    [except Exception: return self.get_user_by_email(identifier)] *)
Definition get_user_by_identifier (identifier : string) : M W (option User.t) :=
  fun w =>
    match get_user_by_id identifier w with
    | (Ok user, w') => (Ok (Some user), w')
    | (Raise _, w') => UserService.get_user_by_email client identifier w'
    end.

End Service.

End UserLookup.

Module IssueByTypeName.

(** [IssueService.create_issue_by_type_name]; [get_project] and
    [get_issue_type_id_by_name] are the client's methods of those names. *)
Section Service.

Context {W Issue datetime : Type}.
Variable client : JiraClient.t W Issue.
Variable get_project : string -> M W (Project.t datetime).
Variable get_issue_type_id_by_name : string -> string -> M W string.

Definition create_issue_by_type_name (project_key summary issue_type_name : string)
    (description priority_id assignee_email : option string)
    (labels : option (list string)) : M W Issue :=
  project <- get_project project_key ;;
  let project_id := Project.id project in
  issue_type_id <- get_issue_type_id_by_name project_key issue_type_name ;;
  IssueService.create_issue client project_id summary issue_type_id
    description priority_id assignee_email labels.

End Service.

End IssueByTypeName.

Module ProjectClient.

(** The methods of the client that [ProjectService] calls. *)
Record t (W datetime : Type) : Type := mk {
  get_project : string -> M W (Project.t datetime);
  get_project_versions : string -> M W (list (ProjectVersion.t datetime));
  create_project_version :
    ProjectVersionCreate.t -> M W (ProjectVersion.t datetime);
  get_issue_types : M W json
}.

Arguments get_project {W datetime} _ _.
Arguments get_project_versions {W datetime} _ _.
Arguments create_project_version {W datetime} _ _.
Arguments get_issue_types {W datetime} _.

End ProjectClient.

Module ProjectService.

Import Exceptions.

Section Service.

Context {W datetime : Type}.
Variable client : ProjectClient.t W datetime.

(** [int(s)]: the number, or the text of the [ValueError]. *)
Variable py_int : string -> string + Z.

Definition get_project (project_key : string) : M W (Project.t datetime) :=
  ProjectClient.get_project client project_key.

Definition get_project_versions (project_key : string)
    (released_only : option bool) : M W (list (ProjectVersion.t datetime)) :=
  versions <- ProjectClient.get_project_versions client project_key ;;
  match released_only with
  | None => ret versions
  | Some true => ret (filter (fun v => ProjectVersion.released v) versions)
  | Some false =>
      ret (filter (fun v => negb (ProjectVersion.released v)) versions)
  end.

Definition create_version (project_key version_name : string)
    (description start_date release_date : option string)
    (released archived : bool) : M W (ProjectVersion.t datetime) :=
  project <- get_project project_key ;;
  match py_int (Project.id project) with
  | inl e => raise (ValueError e)
  | inr project_id =>
      let version_data :=
        ProjectVersionCreate.mk version_name description project_id
          archived released start_date release_date in
      ProjectClient.create_project_version client version_data
  end.

Definition get_version_by_name (project_key version_name : string)
    : M W (option (ProjectVersion.t datetime)) :=
  versions <- get_project_versions project_key None ;;
  ret (find (fun version => String.eqb (ProjectVersion.name version) version_name)
         versions).

Definition get_released_versions (project_key : string)
    : M W (list (ProjectVersion.t datetime)) :=
  get_project_versions project_key (Some true).

Definition get_unreleased_versions (project_key : string)
    : M W (list (ProjectVersion.t datetime)) :=
  get_project_versions project_key (Some false).

Definition get_issue_types : M W json :=
  ProjectClient.get_issue_types client.

End Service.

End ProjectService.

(* ================================================================== *)
(** ** jira_api/server.py *)
(* ================================================================== *)

Module Server.

Import Exceptions.

(** How a handler ends: it returns a value, raises [HTTPException], or
    lets another exception through to the framework. *)
Inductive reply (A : Type) : Type :=
| Returned (a : A)
| HTTPException (status_code : Z) (detail : string)
    (headers : list (string * string))
| Uncaught (e : exn).

Arguments Returned {A} a.
Arguments HTTPException {A} status_code detail headers.
Arguments Uncaught {A} e.

(** [verify_api_key]: [server_api_key] is the configured key,
    [credentials] the [(username, password)] of the request, if any. *)
Definition verify_api_key (server_api_key : option string)
    (credentials : option (string * string)) : reply bool :=
  match server_api_key with
  | None => Returned true
  | Some key =>
      if negb (PyStr.truthy key) then Returned true
      else
        match credentials with
        | None =>
            HTTPException 401 "Authentication required"
              [("WWW-Authenticate", "Basic")]
        | Some (username, _) =>
            if negb (String.eqb username key)
            then HTTPException 401 "Invalid API key"
                   [("WWW-Authenticate", "Basic")]
            else Returned true
        end
  end.

(** [except JiraAPIError as e:]
    [raise HTTPException(status_code=e.status_code or 400, detail=str(e))] *)
Definition http_error {A : Type} (e : JiraAPIError) : reply A :=
  HTTPException
    (match status_code e with
     | Some c => if Z.eqb c 0 then 400%Z else c
     | None => 400%Z
     end)
    (str e) [].

(** The handlers from the point where [get_jira_client()] has returned
    [client]: the statements of the [with] block, under the [except] clause
    of the handler.  The handlers as the framework calls them, which build
    the client first and close it when the block is left, are in
    [Endpoint] below. *)
Section Handlers.

Context {W Issue : Type}.

(** The client that [get_jira_client()] has returned. *)
Variable client : JiraClient.t W Issue.
Variable get_user : string -> M W User.t.

(** The try block of a handler around its body. *)
Definition guarded {A : Type} (body : M W (reply A)) : W -> reply A * W :=
  fun w =>
    match body w with
    | (Ok r, w') => (r, w')
    | (Raise (Jira e), w') => (http_error e, w')
    | (Raise e, w') => (Uncaught e, w')
    end.

Definition search_users (query : string) (max_results : Z)
    : W -> reply (list User.t) * W :=
  guarded (users <- JiraClient.search_users client query max_results ;;
           ret (Returned users)).

Definition get_user_handler (identifier : string) : W -> reply User.t * W :=
  guarded (user <- UserLookup.get_user_by_identifier client get_user identifier ;;
           match user with
           | None =>
               ret (HTTPException 404 ("User '" ++ identifier ++ "' not found") [])
           | Some u => ret (Returned u)
           end).

Definition create_issue (issue_data : IssueCreate.t) : W -> reply Issue * W :=
  guarded (issue <- IssueService.create_issue client
                      (IssueCreate.project_id issue_data)
                      (IssueCreate.summary issue_data)
                      (IssueCreate.issue_type_id issue_data)
                      (IssueCreate.description issue_data)
                      (IssueCreate.priority_id issue_data)
                      None
                      (Some (IssueCreate.labels issue_data)) ;;
           ret (Returned issue)).

Definition update_issue (issue_key : string) (update_data : IssueUpdate.t)
    : W -> reply json * W :=
  guarded
    (match IssueUpdate.summary update_data with
     | Some summary =>
         if PyStr.truthy summary
         then IssueService.update_issue_summary client issue_key summary
         else ret tt
     | None => ret tt
     end ;;;
     match IssueUpdate.labels_add update_data with
     | [] => ret tt
     | _ :: _ =>
         IssueService.add_labels_to_issue client issue_key
           (IssueUpdate.labels_add update_data)
     end ;;;
     match IssueUpdate.labels_remove update_data with
     | [] => ret tt
     | _ :: _ =>
         IssueService.remove_labels_from_issue client issue_key
           (IssueUpdate.labels_remove update_data)
     end ;;;
     ret (Returned
            (JObj [("message",
                    JStr ("Issue " ++ issue_key ++ " updated successfully"))]))).

Definition assign_issue (issue_key email : string) : W -> reply json * W :=
  guarded
    (IssueService.assign_issue_by_email client issue_key email ;;;
     ret (Returned
            (JObj [("message",
                    JStr ("Issue " ++ issue_key ++ " assigned to " ++ email))]))).

Definition transition_issue (issue_key transition_name : string)
    (comment resolution_name : option string) : W -> reply json * W :=
  guarded
    (IssueService.transition_issue_by_name client issue_key transition_name
       comment resolution_name ;;;
     ret (Returned
            (JObj [("message",
                    JStr ("Issue " ++ issue_key ++ " transitioned using '"
                          ++ transition_name ++ "'"))]))).

End Handlers.

(** [JiraConfig] of [config.py]. *)
Record JiraConfig : Type := mkJiraConfig {
  base_url : string;
  email : string;
  api_token : string
}.

(** What the [except JiraAPIError] clause of a handler makes of an
    exception that reaches it: an error of the hierarchy becomes an
    [HTTPException], anything else passes. *)
Definition except_clause {A : Type} (e : exn) : reply A :=
  match e with
  | Jira j => http_error j
  | _ => Uncaught e
  end.

(** The handlers as the framework calls them, once the dependency
    [verify_api_key] has let the request through:
[[
    try:
        with get_jira_client() as client:
            <body>
    except JiraAPIError as e:
        raise HTTPException(status_code=e.status_code or 400, detail=str(e))
]] *)
Module Endpoint.

Section Endpoints.

Context {W Issue : Type}.

(** [get_config()]: it reads the environment and the configuration file. *)
Variable get_config : M W (option JiraConfig).

(** The rest of [JiraClient.__init__] after its test of the base URL:
    [urljoin(base_url, "rest/api/3/")] and [httpx.Client(...)] give the
    client, or raise. *)
Variable connect : string -> string -> string -> result (JiraClient.t W Issue).

(** [str(e)] of an exception that is no error of the hierarchy. *)
Variable builtin_str : exn -> string.

(** [JiraClient.close], which closes the connection of the client. *)
Variable close : JiraClient.t W Issue -> M W unit.

(** [client.get_user]. *)
Variable get_user : JiraClient.t W Issue -> string -> M W User.t.

(** [str(e)]. *)
Definition py_str (e : exn) : string :=
  match e with
  | Jira j => Exceptions.str j
  | _ => builtin_str e
  end.

(** [JiraClient(base_url=..., email=..., api_token=...)]:
[[
    if not base_url.startswith(("http://", "https://")):
        raise JiraValidationError("Base URL must start with http:// or https://")
    if not base_url.endswith("/"):
        base_url += "/"
]] *)
Definition new_JiraClient (base_url email api_token : string)
    : result (JiraClient.t W Issue) :=
  if negb (orb (String.prefix "http://" base_url)
               (String.prefix "https://" base_url))
  then Raise (Jira (JiraValidationError
                      "Base URL must start with http:// or https://"))
  else
    connect (if negb (PyStr.endswith "/" base_url) then base_url ++ "/"
             else base_url)
      email api_token.

(** [get_jira_client()]: a missing configuration, and any exception of the
    constructor ([except Exception as e]), end in an [HTTPException] with
    status 500.  An exception of [get_config()] itself is outside the [try]
    and goes on. *)
Definition get_jira_client : M W (reply (JiraClient.t W Issue)) :=
  config <- get_config ;;
  match config with
  | None =>
      ret (HTTPException 500
             "JIRA configuration not found. Please configure the server with environment variables."
             [])
  | Some config =>
      match new_JiraClient (base_url config) (email config)
              (api_token config) with
      | Ok client => ret (Returned client)
      | Raise e =>
          ret (HTTPException 500
                 ("Failed to create JIRA client: " ++ py_str e) [])
      end
  end.

(** [with client: <body>]: [__exit__] closes the client whichever way the
    block is left and returns [None], so what the block raised goes on; an
    exception of [close] takes its place. *)
Definition with_client {A : Type} (client : JiraClient.t W Issue)
    (body : M W (reply A)) : M W (reply A) :=
  fun w =>
    match body w with
    | (r, w1) =>
        match close client w1 with
        | (Ok _, w2) => (r, w2)
        | (Raise e, w2) => (Raise e, w2)
        end
    end.

Definition handler {A : Type} (body : JiraClient.t W Issue -> M W (reply A))
    : W -> reply A * W :=
  guarded (got <- get_jira_client ;;
           match got with
           | Returned client => with_client client (body client)
           | HTTPException status_code detail headers =>
               ret (HTTPException status_code detail headers)
           | Uncaught e => raise e
           end).

Definition search_users (query : string) (max_results : Z)
    : W -> reply (list User.t) * W :=
  handler (fun client =>
    users <- JiraClient.search_users client query max_results ;;
    ret (Returned users)).

Definition get_user_handler (identifier : string) : W -> reply User.t * W :=
  handler (fun client =>
    user <- UserLookup.get_user_by_identifier client (get_user client)
              identifier ;;
    match user with
    | None =>
        ret (HTTPException 404 ("User '" ++ identifier ++ "' not found") [])
    | Some u => ret (Returned u)
    end).

Definition create_issue (issue_data : IssueCreate.t) : W -> reply Issue * W :=
  handler (fun client =>
    issue <- IssueService.create_issue client
               (IssueCreate.project_id issue_data)
               (IssueCreate.summary issue_data)
               (IssueCreate.issue_type_id issue_data)
               (IssueCreate.description issue_data)
               (IssueCreate.priority_id issue_data)
               None
               (Some (IssueCreate.labels issue_data)) ;;
    ret (Returned issue)).

Definition update_issue (issue_key : string) (update_data : IssueUpdate.t)
    : W -> reply json * W :=
  handler (fun client =>
    match IssueUpdate.summary update_data with
    | Some summary =>
        if PyStr.truthy summary
        then IssueService.update_issue_summary client issue_key summary
        else ret tt
    | None => ret tt
    end ;;;
    match IssueUpdate.labels_add update_data with
    | [] => ret tt
    | _ :: _ =>
        IssueService.add_labels_to_issue client issue_key
          (IssueUpdate.labels_add update_data)
    end ;;;
    match IssueUpdate.labels_remove update_data with
    | [] => ret tt
    | _ :: _ =>
        IssueService.remove_labels_from_issue client issue_key
          (IssueUpdate.labels_remove update_data)
    end ;;;
    ret (Returned
           (JObj [("message",
                   JStr ("Issue " ++ issue_key ++ " updated successfully"))]))).

Definition assign_issue (issue_key email : string) : W -> reply json * W :=
  handler (fun client =>
    IssueService.assign_issue_by_email client issue_key email ;;;
    ret (Returned
           (JObj [("message",
                   JStr ("Issue " ++ issue_key ++ " assigned to " ++ email))]))).

Definition transition_issue (issue_key transition_name : string)
    (comment resolution_name : option string) : W -> reply json * W :=
  handler (fun client =>
    IssueService.transition_issue_by_name client issue_key transition_name
      comment resolution_name ;;;
    ret (Returned
           (JObj [("message",
                   JStr ("Issue " ++ issue_key ++ " transitioned using '"
                         ++ transition_name ++ "'"))]))).

End Endpoints.

End Endpoint.

End Server.

(* ================================================================== *)
(** ** The spec's own words, kept apart from the code *)
(* ================================================================== *)

Module SpecText.

(** Section 4.2, rich text encode: a single-paragraph rich document
    [{type: "doc", version: 1, content: [{type: "paragraph",
      content: [{type: "text", text: <string>}]}]}]. *)
Definition rich_text (s : string) : json :=
  JObj [ ("type", JStr "doc");
         ("version", JNum 1);
         ("content",
          JArr [ JObj [ ("type", JStr "paragraph");
                        ("content",
                         JArr [ JObj [ ("type", JStr "text");
                                       ("text", JStr s) ] ]) ] ]) ].

(** Section 4.1: the human string of a failure is
    ["<Kind> (<code>): <message>"] when a code is present, else
    ["<Kind>: <message>"], for a naming [kind_name] of the failure kinds. *)
Definition render (kind_name : Exceptions.JiraClass -> string)
    (e : Exceptions.JiraAPIError) : string :=
  match Exceptions.status_code e with
  | Some c =>
      kind_name (Exceptions.cls e) ++ " (" ++ PyStr.of_int c ++ "): "
      ++ Exceptions.message e
  | None => kind_name (Exceptions.cls e) ++ ": " ++ Exceptions.message e
  end.

(** Section 3, IssueType: a document of the remote system that carries
    the id [id] and the name [name], whatever else it holds. *)
Definition is_issue_type (v : json) (id name : string) : Prop :=
  exists d, v = JObj d
            /\ dict_get "id" d = Some (JStr id)
            /\ dict_get "name" d = Some (JStr name).

(** The typed reading of a list of issue-type documents: the [(id, name)]
    pairs, in the order of the list. *)
Definition typed_as (types : list json) (typed : list (string * string)) : Prop :=
  Forall2 (fun v p => is_issue_type v (fst p) (snd p)) types typed.

(** Case-insensitive equality of two names, as the code compares them. *)
Definition same_name (a b : string) : bool :=
  String.eqb (PyStr.lower a) (PyStr.lower b).

(** A naming identifies the failure kind when distinct kinds get distinct
    names. *)
Definition identifies_kind (kind_name : Exceptions.JiraClass -> string) : Prop :=
  forall k1 k2, kind_name k1 = kind_name k2 -> k1 = k2.

End SpecText.

(* ================================================================== *)
(** ** Test doubles *)
(* ================================================================== *)

Module Mock.

(** A connection whose every call has the same outcome; there is no state
    to thread. *)
Definition replies (o : Transport.outcome)
    : Transport.Request -> unit -> Transport.outcome * unit :=
  fun _ w => (o, w).

(** A connection whose every call has the same outcome and that keeps
    the requests it received, in order. *)
Definition recording (o : Transport.outcome)
    : Transport.Request -> list Transport.Request
      -> Transport.outcome * list Transport.Request :=
  fun request log => (o, (log ++ [request])%list).

(** A response without a body, as the update and assign endpoints give. *)
Definition no_content : Response.t := Response.mk 204 "" (inl "no body").

(** A response with a body that decodes to [data]. *)
Definition ok_with (data : json) : Response.t :=
  Response.mk 200 "document" (inr data).

(** The project document of the unit tests, around a list of issue types. *)
Definition project_response (issue_types : list json) : Response.t :=
  Response.mk 200 "project document"
    (inr (JObj [ ("id", JStr "10000"); ("key", JStr "PROJ");
                 ("issueTypes", JArr issue_types) ])).

Definition epic_and_bug : list json :=
  [ JObj [("id", JStr "10000"); ("name", JStr "Epic")];
    JObj [("id", JStr "10004"); ("name", JStr "Bug")] ].

(** The connection of a project whose issue types are Epic and Bug. *)
Definition epic_and_bug_project
    : Transport.Request -> unit -> Transport.outcome * unit :=
  replies (Transport.Responded (project_response epic_and_bug)).

(** A client that answers from fixed data and keeps the log of the calls
    it received; the issue it returns is the key of the created issue. *)
Inductive call : Type :=
| SearchUsers (query : string) (max_results : Z)
| CreateIssue (issue_data : IssueCreate.t)
| UpdateIssue (issue_key : string) (update_data : IssueUpdate.t)
| AssignIssue (issue_key : string) (assignment : IssueAssignment.t)
| GetIssueTransitions (issue_key : string)
| TransitionIssue (issue_key : string) (request : IssueTransitionRequest.t).

Definition logged {A : Type} (c : call) (a : A) : M (list call) A :=
  fun log => (Ok a, (log ++ [c])%list).

Definition client (users : list User.t) (transitions : list IssueTransition.t)
    : JiraClient.t (list call) string :=
  JiraClient.mk (list call) string
    (fun query max_results => logged (SearchUsers query max_results) users)
    (fun issue_data => logged (CreateIssue issue_data) "PROJ-1")
    (fun issue_key update_data => logged (UpdateIssue issue_key update_data) tt)
    (fun issue_key assignment => logged (AssignIssue issue_key assignment) tt)
    (fun issue_key => logged (GetIssueTransitions issue_key) transitions)
    (fun issue_key request => logged (TransitionIssue issue_key request) tt).

Definition jane : User.t :=
  User.mk "5b10ac8d82e05b22cc7d4ef5" (Some "Jane@Example.com") "Jane Doe" true
    None None None.

Definition start_progress : IssueTransition.t :=
  IssueTransition.mk "11" "Start Progress"
    (IssueStatus.mk "3" "In Progress" "Work has started" None) false.

Definition done : IssueTransition.t :=
  IssueTransition.mk "31" "Done"
    (IssueStatus.mk "10001" "Done" "Work is complete" None) false.

(** A recording connection that answers a POST with [post] and any other
    request with [other]. *)
Definition answering (post other : Response.t)
    : Transport.Request -> list Transport.Request
      -> Transport.outcome * list Transport.Request :=
  fun request log =>
    (Transport.Responded
       (if String.eqb (Transport.method request) "POST" then post else other),
     (log ++ [request])%list).

(** Stand-ins for the pydantic validation: a user needs an account id and
    a display name, an issue is kept as its key, no transition is accepted. *)
Definition validate_user (d : dict) : string + User.t :=
  match dict_get "accountId" d, dict_get "displayName" d with
  | Some (JStr account_id), Some (JStr display_name) =>
      inr (User.mk account_id
             (match dict_get "emailAddress" d with
              | Some (JStr e) => Some e
              | _ => None
              end)
             display_name true None None None)
  | _, _ => inl "validation error for User"
  end.

Definition validate_issue (d : dict) : string + string :=
  match dict_get "key" d with
  | Some (JStr key) => inr key
  | _ => inl "validation error for Issue"
  end.

Definition validate_transition (d : dict) : string + IssueTransition.t :=
  inl "validation error for IssueTransition".

Definition py_format (v : json) : string := "".

(** The client of [core/client.py] over a connection, with the stand-ins
    above. *)
Definition core_client {W : Type}
    (send : Transport.Request -> W -> Transport.outcome * W)
    : JiraClient.t W string :=
  CoreClient.client W send string validate_user validate_issue
    validate_transition py_format.

(** A client that lets the summary be written and refuses every update
    that adds labels. *)
Definition client_without_label_permission : JiraClient.t (list call) string :=
  JiraClient.mk (list call) string
    (JiraClient.search_users (client [] []))
    (JiraClient.create_issue (client [] []))
    (fun issue_key update_data log =>
       match IssueUpdate.labels_add update_data with
       | [] => (Ok tt, (log ++ [UpdateIssue issue_key update_data])%list)
       | _ :: _ =>
           (Raise (Exceptions.Jira
                     (Exceptions.JiraPermissionError
                        "Insufficient permissions for this operation")),
            log)
       end)
    (JiraClient.assign_issue (client [] []))
    (JiraClient.get_issue_transitions (client [] []))
    (JiraClient.transition_issue (client [] [])).

(** [client.get_user] refused for lack of credentials. *)
Definition get_user_refused : string -> M (list call) User.t :=
  fun _ =>
    raise (Exceptions.Jira
             (Exceptions.JiraAuthenticationError
                "Invalid credentials or expired token")).

Definition version (name : string) (released : bool) : ProjectVersion.t unit :=
  ProjectVersion.mk "10000" name None false released None None None None None
    10000.

Definition project (id : string) : Project.t unit :=
  Project.mk id "PROJ" "Test Project" None None (Some "software") None None
    None None.

(** A project client that answers from fixed data and logs the names of
    the methods called. *)
Definition project_client (found : result (Project.t unit))
    (versions : list (ProjectVersion.t unit))
    : ProjectClient.t (list string) unit :=
  ProjectClient.mk (list string) unit
    (fun _ log => (found, (log ++ ["get_project"])%list))
    (fun _ log => (Ok versions, (log ++ ["get_project_versions"])%list))
    (fun data log =>
       (Ok (ProjectVersion.mk "10001" (ProjectVersionCreate.name data)
              (ProjectVersionCreate.description data)
              (ProjectVersionCreate.archived data)
              (ProjectVersionCreate.released data) None None None None None
              (ProjectVersionCreate.project_id data)),
        (log ++ ["create_project_version"])%list))
    (fun log => (Ok (JArr []), (log ++ ["get_issue_types"])%list)).

(** A configuration, found without touching the log. *)
Definition config (base_url : string) : Server.JiraConfig :=
  Server.mkJiraConfig base_url "jane@example.com" "secret".

Definition get_config (found : option Server.JiraConfig)
    : M (list call) (option Server.JiraConfig) :=
  ret found.

(** A constructor that always hands out the same client. *)
Definition connect (c : JiraClient.t (list call) string)
    : string -> string -> string -> result (JiraClient.t (list call) string) :=
  fun _ _ _ => Ok c.

Definition builtin_str (e : Exceptions.exn) : string :=
  match e with
  | Exceptions.ValueError msg => msg
  | Exceptions.OtherException _ text => text
  | _ => ""
  end.

(** Closing leaves no trace in the log. *)
Definition close (c : JiraClient.t (list call) string) : M (list call) unit :=
  ret tt.

(** A stand-in for [int] that knows the ids of the examples. *)
Definition py_int (s : string) : string + Z :=
  if String.eqb s "10000" then inr 10000%Z
  else inl "invalid literal for int() with base 10".

End Mock.

(* ================================================================== *)
(** * Properties *)
(* ================================================================== *)

(** ** Strings *)

Section StringFacts.

(** The code points below 256 that [str.lower()] changes are the 26
    letters from 65, the 23 accented capitals from 192 and the 7 from 216;
    each goes to the code point 32 places higher.  This is the table of
    CPython's [str.lower()] on one-character strings [chr(n)], [n < 256]. *)
Lemma lower_char_table :
  filter (fun n => negb (Nat.eqb (nat_of_ascii
                                    (PyStr.lower_char (ascii_of_nat n))) n))
         (seq 0 256)
  = (seq 65 26 ++ seq 192 23 ++ seq 216 7)%list
  /\ forallb (fun n => Nat.eqb (nat_of_ascii
                                  (PyStr.lower_char (ascii_of_nat n))) (n + 32))
       (seq 65 26 ++ seq 192 23 ++ seq 216 7)%list = true.
Proof. split; vm_compute; reflexivity. Qed.

Lemma lower_char_idempotent (c : ascii) :
  PyStr.lower_char (PyStr.lower_char c) = PyStr.lower_char c.
Proof.
  destruct c as [[] [] [] [] [] [] [] []]; vm_compute; reflexivity.
Qed.

Lemma lower_idempotent (s : string) :
  PyStr.lower (PyStr.lower s) = PyStr.lower s.
Proof.
  induction s as [|c s IH]; simpl; [reflexivity|].
  now rewrite lower_char_idempotent, IH.
Qed.

Lemma lower_length (s : string) :
  String.length (PyStr.lower s) = String.length s.
Proof. induction s as [|c s IH]; simpl; congruence. Qed.

(** ["\u00c9cole".lower() == "\u00e9cole"]: an accented capital is folded,
    the sharp s and the multiplication sign are left alone. *)
Example lower_accented_capital :
  PyStr.lower (String (ascii_of_nat 201) "COLE")
  = String (ascii_of_nat 233) "cole"
  /\ PyStr.lower (String (ascii_of_nat 223) (String (ascii_of_nat 215) "x"))
     = String (ascii_of_nat 223) (String (ascii_of_nat 215) "x").
Proof. split; reflexivity. Qed.

End StringFacts.

(** ** Dictionaries *)

Section DictFacts.

Lemma dict_get_set_same (k : string) (v : json) (d : dict) :
  dict_get k (dict_set k v d) = Some v.
Proof.
  induction d as [|[k' v'] d IH]; simpl.
  - now rewrite String.eqb_refl.
  - destruct (String.eqb k k') eqn:E; simpl; rewrite ?E, ?String.eqb_refl; auto.
Qed.

Lemma dict_get_set_other (k k' : string) (v : json) (d : dict) :
  k <> k' -> dict_get k (dict_set k' v d) = dict_get k d.
Proof.
  intros Hne. apply String.eqb_neq in Hne.
  induction d as [|[k0 v0] d IH]; simpl.
  - now rewrite Hne.
  - destruct (String.eqb k' k0) eqn:E; simpl.
    + apply String.eqb_eq in E. subst k0. now rewrite Hne.
    + now rewrite IH.
Qed.

Lemma truthy_nonempty (s : string) : s <> "" -> PyStr.truthy s = true.
Proof. destruct s; [congruence | reflexivity]. Qed.

Lemma dict_get_when_set_same (s k : string) (f : string -> json) (d : dict) :
  s <> "" -> dict_get k (when_set (Some s) k f d) = Some (f s).
Proof.
  intros Hs. unfold when_set. rewrite (truthy_nonempty s Hs).
  apply dict_get_set_same.
Qed.

Lemma dict_get_when_set_other (o : option string) (k k' : string)
    (f : string -> json) (d : dict) :
  k <> k' -> dict_get k (when_set o k' f d) = dict_get k d.
Proof.
  intros Hne. unfold when_set. destruct o as [s|]; [|reflexivity].
  destruct (PyStr.truthy s); [now apply dict_get_set_other | reflexivity].
Qed.

Lemma dict_get_when_nonempty_other {A : Type} (items : list A) (k k' : string)
    (v : json) (d : dict) :
  k <> k' -> dict_get k (when_nonempty items k' v d) = dict_get k d.
Proof.
  intros Hne. destruct items; simpl; [reflexivity | now apply dict_get_set_other].
Qed.

End DictFacts.

(** Keys of the payloads are literals: their comparisons compute. *)
Ltac other_key :=
  first [ rewrite dict_get_when_set_other by (intro; discriminate)
        | rewrite dict_get_when_nonempty_other by (intro; discriminate) ].

(** ** Payload builders ([models/issue.py]) *)

Section Payloads.

Import IssueUpdate.

(** Which keys the update object holds: each one exactly when its field
    is truthy. *)
Lemma update_has_summary (u : IssueUpdate.t) :
  dict_mem "summary" (update u) = PyStr.opt_truthy (summary u).
Proof.
  unfold dict_mem, update. repeat other_key.
  destruct (summary u) as [[|c s]|]; reflexivity.
Qed.

Lemma update_has_description (u : IssueUpdate.t) :
  dict_mem "description" (update u) = PyStr.opt_truthy (description u).
Proof.
  unfold dict_mem, update. repeat other_key.
  destruct (description u) as [[|c s]|]; simpl.
  - now other_key.
  - now rewrite dict_get_set_same.
  - now other_key.
Qed.

Lemma update_has_priority (u : IssueUpdate.t) :
  dict_mem "priority" (update u) = PyStr.opt_truthy (priority_id u).
Proof.
  unfold dict_mem, update.
  destruct (priority_id u) as [[|c s]|]; simpl.
  - repeat other_key. reflexivity.
  - now rewrite dict_get_set_same.
  - repeat other_key. reflexivity.
Qed.

Lemma update_has_labels (u : IssueUpdate.t) :
  dict_mem "labels" (update u)
  = negb (match labels_add u, labels_remove u with
          | [], [] => true
          | _, _ => false
          end).
Proof.
  unfold dict_mem, update. other_key.
  destruct (labels_add u), (labels_remove u); simpl;
    rewrite ?dict_get_set_same; repeat other_key; reflexivity.
Qed.

Lemma dict_mem_false (k : string) (d : dict) :
  dict_mem k d = false -> dict_get k d = None.
Proof. unfold dict_mem. destruct (dict_get k d); [discriminate | reflexivity]. Qed.

(** C1, as stated, fails: with every field unset and no labels the payload
    built by [IssueUpdate.to_jira_format] is [{"update": {}}], which is not
    the empty object. *)
Lemma empty_update_payload_not_empty_object :
  to_jira_format (IssueUpdate.mk None None [] [] None)
    = JObj [("update", JObj [])]
  /\ to_jira_format (IssueUpdate.mk None None [] [] None) <> JObj [].
Proof. split; [reflexivity | discriminate]. Qed.

(** C1 (amended): for every [IssueUpdate] with [summary], [description] and
    [priority_id] unset and both label lists empty, the payload is
    [{"update": {}}]: its single key ["update"] holds an empty object, with
    no field key at all. *)
Theorem empty_update_payload (u : IssueUpdate.t) :
  summary u = None ->
  description u = None ->
  priority_id u = None ->
  labels_add u = [] ->
  labels_remove u = [] ->
  to_jira_format u = JObj [("update", JObj [])].
Proof.
  intros Hs Hd Hp Ha Hr.
  unfold to_jira_format, update.
  now rewrite Hs, Hd, Hp, Ha, Hr.
Qed.

Lemma empty_update_payload_witness :
  to_jira_format (IssueUpdate.mk None None [] [] None)
    = JObj [("update", JObj [])].
Proof.
  apply (empty_update_payload (IssueUpdate.mk None None [] [] None));
    reflexivity.
Defined.

(** C5: a field left unset ([summary], [description], [priority_id] equal
    to [None]; the labels when both lists are empty) is not a key of the
    update object built by [IssueUpdate.to_jira_format], and the payload
    itself has the single key ["update"]. *)
Theorem unset_fields_absent_from_update (u : IssueUpdate.t) :
  to_jira_format u = JObj [("update", JObj (update u))]
  /\ (summary u = None -> dict_get "summary" (update u) = None)
  /\ (description u = None -> dict_get "description" (update u) = None)
  /\ (priority_id u = None -> dict_get "priority" (update u) = None)
  /\ (labels_add u = [] -> labels_remove u = [] ->
      dict_get "labels" (update u) = None).
Proof.
  split; [reflexivity|].
  split; [|split; [|split]].
  - intros Hs. apply dict_mem_false. rewrite update_has_summary. now rewrite Hs.
  - intros Hd. apply dict_mem_false. rewrite update_has_description.
    now rewrite Hd.
  - intros Hp. apply dict_mem_false. rewrite update_has_priority.
    now rewrite Hp.
  - intros Ha Hr. apply dict_mem_false. rewrite update_has_labels.
    now rewrite Ha, Hr.
Qed.

Lemma unset_fields_absent_from_update_witness :
  dict_get "summary" (update (IssueUpdate.mk None None [] [] None)) = None
  /\ dict_get "description" (update (IssueUpdate.mk None None [] [] None)) = None
  /\ dict_get "priority" (update (IssueUpdate.mk None None [] [] None)) = None
  /\ dict_get "labels" (update (IssueUpdate.mk None None [] [] None)) = None.
Proof.
  destruct (unset_fields_absent_from_update
              (IssueUpdate.mk None None [] [] None))
    as (_ & Hs & Hd & Hp & Hl).
  exact (conj (Hs eq_refl)
          (conj (Hd eq_refl) (conj (Hp eq_refl) (Hl eq_refl eq_refl)))).
Defined.

(** C9: a field set to the empty string is dropped like an unset one.  For
    each of [summary], [description] and [priority_id], when the field is
    [Some ""] the update object has no key for it, and the payload equals
    the payload of the same delta with that field unset. *)
Theorem empty_string_field_treated_as_unset (u : IssueUpdate.t) :
  (summary u = Some "" ->
     dict_get "summary" (update u) = None
     /\ to_jira_format u
        = to_jira_format (IssueUpdate.mk None (description u) (labels_add u)
                            (labels_remove u) (priority_id u)))
  /\ (description u = Some "" ->
     dict_get "description" (update u) = None
     /\ to_jira_format u
        = to_jira_format (IssueUpdate.mk (summary u) None (labels_add u)
                            (labels_remove u) (priority_id u)))
  /\ (priority_id u = Some "" ->
     dict_get "priority" (update u) = None
     /\ to_jira_format u
        = to_jira_format (IssueUpdate.mk (summary u) (description u)
                            (labels_add u) (labels_remove u) None)).
Proof.
  split; [|split]; intros Hempty; (split; [apply dict_mem_false|]).
  - rewrite update_has_summary. now rewrite Hempty.
  - unfold to_jira_format, update; simpl. now rewrite Hempty.
  - rewrite update_has_description. now rewrite Hempty.
  - unfold to_jira_format, update; simpl. now rewrite Hempty.
  - rewrite update_has_priority. now rewrite Hempty.
  - unfold to_jira_format, update; simpl. now rewrite Hempty.
Qed.

Lemma empty_string_field_treated_as_unset_witness :
  dict_get "summary"
    (update (IssueUpdate.mk (Some "") (Some "d") ["urgent"] [] None)) = None
  /\ to_jira_format (IssueUpdate.mk (Some "") (Some "d") ["urgent"] [] None)
     = to_jira_format (IssueUpdate.mk None (Some "d") ["urgent"] [] None).
Proof.
  destruct (empty_string_field_treated_as_unset
              (IssueUpdate.mk (Some "") (Some "d") ["urgent"] [] None))
    as (Hs & _ & _).
  exact (Hs eq_refl).
Defined.

(** The payloads are the envelopes around the objects built above: a
    subscript path into a payload goes through ["fields"], respectively
    ["update"], into that object. *)
Lemma create_payload_fields (c : IssueCreate.t) (keys : list string) :
  py_path (IssueCreate.to_jira_format c) ("fields" :: keys)
  = py_path (JObj (IssueCreate.fields c)) keys.
Proof. reflexivity. Qed.

Lemma update_payload_update (u : IssueUpdate.t) (keys : list string) :
  py_path (IssueUpdate.to_jira_format u) ("update" :: keys)
  = py_path (JObj (IssueUpdate.update u)) keys.
Proof. reflexivity. Qed.

Lemma create_payload_envelope (c : IssueCreate.t) :
  IssueCreate.to_jira_format c = JObj [("fields", JObj (IssueCreate.fields c))].
Proof. reflexivity. Qed.

(** C6: for every non-empty string [s], the description written by the
    create payload and by the update payload is the rich-text document of
    the spec, [{"type":"doc","version":1,"content":[{"type":"paragraph",
    "content":[{"type":"text","text":s}]}]}], exactly: it is
    [payload["fields"]["description"]] of the create payload, and the value
    of the single ["set"] operation at [payload["update"]["description"]]
    of the update payload. *)
Theorem description_rich_text_encoding (s : string) (Hs : s <> "") :
  (forall c : IssueCreate.t,
      IssueCreate.description c = Some s ->
      py_path (IssueCreate.to_jira_format c) ["fields"; "description"]
        = Some (SpecText.rich_text s))
  /\ (forall u : IssueUpdate.t,
      IssueUpdate.description u = Some s ->
      py_path (IssueUpdate.to_jira_format u) ["update"; "description"]
        = Some (JArr [ JObj [("set", SpecText.rich_text s)] ])).
Proof.
  split.
  - intros c Hc. rewrite create_payload_fields. simpl.
    unfold IssueCreate.fields. repeat other_key.
    rewrite Hc. now rewrite dict_get_when_set_same.
  - intros u Hu. rewrite update_payload_update. simpl.
    unfold IssueUpdate.update. repeat other_key.
    rewrite Hu. now rewrite dict_get_when_set_same.
Qed.

Lemma description_rich_text_encoding_witness :
  py_path
    (IssueCreate.to_jira_format
       (IssueCreate.mk "10000" "Test issue" (Some "Test description")
          "10001" None None None []))
    ["fields"; "description"]
  = Some (SpecText.rich_text "Test description")
  /\ py_path
       (IssueUpdate.to_jira_format
          (IssueUpdate.mk None (Some "Test description") [] [] None))
       ["update"; "description"]
     = Some (JArr [ JObj [("set", SpecText.rich_text "Test description")] ]).
Proof.
  assert (Hne : "Test description" <> "") by discriminate.
  destruct (description_rich_text_encoding "Test description" Hne)
    as [Hcreate Hupdate].
  split.
  - apply Hcreate. reflexivity.
  - apply Hupdate. reflexivity.
Defined.

(** The same document is what an empty description never produces: the
    builders skip the key, so the encoding is only ever applied to a
    non-empty string. *)
Lemma empty_description_not_encoded (c : IssueCreate.t) (u : IssueUpdate.t) :
  IssueCreate.description c = Some "" ->
  IssueUpdate.description u = Some "" ->
  dict_get "description" (IssueCreate.fields c) = None
  /\ dict_get "description" (IssueUpdate.update u) = None.
Proof.
  intros Hc Hu. split.
  - unfold IssueCreate.fields. repeat other_key. now rewrite Hc.
  - apply dict_mem_false. rewrite update_has_description. now rewrite Hu.
Qed.

(** C7: a present, non-empty account id [x] gives [{"accountId": x}], the
    explicit unassignment gives [{"accountId": null}], and the two payloads
    differ: as documents, and in the value they hold under ["accountId"]. *)
Theorem assignment_payloads_distinct (x : string) (Hx : x <> "") :
  IssueAssignment.to_jira_format (IssueAssignment.mk (Some x))
    = JObj [("accountId", JStr x)]
  /\ IssueAssignment.to_jira_format (IssueAssignment.mk None)
     = JObj [("accountId", JNull)]
  /\ IssueAssignment.to_jira_format (IssueAssignment.mk (Some x))
     <> IssueAssignment.to_jira_format (IssueAssignment.mk None)
  /\ py_getitem (IssueAssignment.to_jira_format (IssueAssignment.mk (Some x)))
       "accountId"
     <> py_getitem (IssueAssignment.to_jira_format (IssueAssignment.mk None))
          "accountId".
Proof.
  unfold IssueAssignment.to_jira_format; simpl.
  rewrite (truthy_nonempty x Hx).
  repeat split; simpl; discriminate.
Qed.

Lemma assignment_payloads_distinct_witness :
  IssueAssignment.to_jira_format (IssueAssignment.mk (Some "X"))
    = JObj [("accountId", JStr "X")]
  /\ IssueAssignment.to_jira_format (IssueAssignment.mk None)
     = JObj [("accountId", JNull)]
  /\ IssueAssignment.to_jira_format (IssueAssignment.mk (Some "X"))
     <> IssueAssignment.to_jira_format (IssueAssignment.mk None)
  /\ py_getitem
       (IssueAssignment.to_jira_format (IssueAssignment.mk (Some "X")))
       "accountId"
     <> py_getitem (IssueAssignment.to_jira_format (IssueAssignment.mk None))
          "accountId".
Proof.
  assert (Hne : "X" <> "") by discriminate.
  exact (assignment_payloads_distinct "X" Hne).
Defined.

(** An account id given as the empty string is sent as the unassignment:
    [if self.account_id:] tests truthiness. *)
Lemma empty_account_id_unassigns :
  IssueAssignment.to_jira_format (IssueAssignment.mk (Some ""))
  = IssueAssignment.to_jira_format (IssueAssignment.mk None).
Proof. reflexivity. Qed.

End Payloads.

(** ** Error taxonomy ([exceptions.py]) *)

Section Rendering.

Import Exceptions.

Lemma length_append (a b : string) :
  String.length (a ++ b) = String.length a + String.length b.
Proof. induction a as [|c a IH]; simpl; [reflexivity | now rewrite IH]. Qed.

Lemma append_cancel_r (a b c : string) : a ++ c = b ++ c -> a = b.
Proof.
  intros H.
  assert (Hlen : String.length a = String.length b).
  { apply (f_equal String.length) in H. rewrite !length_append in H. lia. }
  revert b H Hlen.
  induction a as [|x a IH]; intros [|y b] H Hlen; simpl in *;
    try discriminate; [reflexivity|].
  injection H as -> H. f_equal. apply IH; [exact H | lia].
Qed.

(** Every class renders with the same prefix; the code is printed when it
    is present and not zero. *)
Lemma str_with_code (e : JiraAPIError) (c : Z) :
  status_code e = Some c -> c <> 0%Z ->
  str e = "JIRA API Error (" ++ PyStr.of_int c ++ "): " ++ message e.
Proof.
  intros Hc Hnz. unfold str. rewrite Hc.
  destruct (Z.eqb_spec c 0); [contradiction | reflexivity].
Qed.

Lemma str_without_code (e : JiraAPIError) :
  status_code e = None \/ status_code e = Some 0%Z ->
  str e = "JIRA API Error: " ++ message e.
Proof. unfold str. intros [-> | ->]; reflexivity. Qed.

(** C8, as stated, fails.  A validation error and a base error built with
    the same code and message (both taken from the unit tests) render to
    the same string, a base error with code [0] renders without its code,
    and no naming of the kinds that tells them apart makes [str] the
    rendering of the spec. *)
Lemma rendering_does_not_identify_kind :
  str (JiraValidationError "Bad request") = "JIRA API Error (400): Bad request"
  /\ str (new_JiraAPIError "Bad request" (Some 400%Z) None)
     = "JIRA API Error (400): Bad request"
  /\ cls (JiraValidationError "Bad request")
     <> cls (new_JiraAPIError "Bad request" (Some 400%Z) None)
  /\ str (new_JiraAPIError "Bad request" (Some 0%Z) None)
     = "JIRA API Error: Bad request"
  /\ ~ (exists kind_name : JiraClass -> string,
          SpecText.identifies_kind kind_name
          /\ forall e, str e = SpecText.render kind_name e).
Proof.
  repeat (split; [first [reflexivity | discriminate]|]).
  intros (kind_name & Hinj & Hrender).
  assert (H1 : "JIRA API Error (400): m"
               = kind_name ValidationError ++ " (400): m")
    by exact (Hrender (JiraValidationError "m")).
  assert (H2 : "JIRA API Error (400): m"
               = kind_name BaseAPIError ++ " (400): m")
    by exact (Hrender (new_JiraAPIError "m" (Some 400%Z) None)).
  assert (Hsame : kind_name ValidationError = kind_name BaseAPIError).
  { apply (append_cancel_r _ _ " (400): m"). now rewrite <- H1, <- H2. }
  apply Hinj in Hsame. discriminate.
Qed.

(** C8 (amended): the rendering of every error value is the spec's form
    with the fixed text "JIRA API Error" in place of a kind name, for every
    class alike: ["JIRA API Error (<code>): <message>"] when a non-zero
    status code is present, ["JIRA API Error: <message>"] when the code is
    absent or zero.  Each subclass always carries its fixed code. *)
Theorem error_rendering_fixed_prefix (e : JiraAPIError) :
  (status_code e <> Some 0%Z ->
     str e = SpecText.render (fun _ => "JIRA API Error") e)
  /\ (status_code e = Some 0%Z -> str e = "JIRA API Error: " ++ message e)
  /\ (forall m,
        str (JiraAuthenticationError m) = "JIRA API Error (401): " ++ m
        /\ str (JiraPermissionError m) = "JIRA API Error (403): " ++ m
        /\ str (JiraNotFoundError m) = "JIRA API Error (404): " ++ m
        /\ str (JiraValidationError m) = "JIRA API Error (400): " ++ m
        /\ str (JiraRateLimitError m) = "JIRA API Error (429): " ++ m
        /\ str (JiraServerError m) = "JIRA API Error (500): " ++ m).
Proof.
  split; [|split].
  - intros Hnz. unfold SpecText.render.
    destruct (status_code e) as [c|] eqn:Hc.
    + apply str_with_code; [exact Hc | congruence].
    + apply str_without_code. now left.
  - intros Hz. apply str_without_code. now right.
  - intros m. repeat split; reflexivity.
Qed.

Lemma error_rendering_fixed_prefix_witness :
  str (JiraNotFoundError "Issue not found")
    = "JIRA API Error (404): Issue not found"
  /\ str (new_JiraAPIError "Something went wrong" None None)
     = "JIRA API Error: Something went wrong".
Proof.
  split.
  - destruct (error_rendering_fixed_prefix
                (JiraNotFoundError "Issue not found")) as (H & _ & _).
    apply H. discriminate.
  - destruct (error_rendering_fixed_prefix
                (new_JiraAPIError "Something went wrong" None None))
      as (H & _ & _).
    apply H. discriminate.
Defined.

End Rendering.

(** ** Transport ([JiraClient._make_request]) *)

Lemma geb_true (n m : Z) : (m <= n)%Z -> (n >=? m)%Z = true.
Proof. intros H. rewrite Z.geb_leb. now apply Z.leb_le. Qed.

Lemma geb_false (n m : Z) : (n < m)%Z -> (n >=? m)%Z = false.
Proof. intros H. rewrite Z.geb_leb. now apply Z.leb_gt. Qed.

Lemma all_str_map_JStr (l : list string) : all_str (map JStr l) = Some l.
Proof. induction l as [|x l IH]; simpl; [reflexivity | now rewrite IH]. Qed.

(** Decides the status tests of [handle_response] from the arithmetic
    facts in the context. *)
Ltac status_tests :=
  repeat match goal with
         | |- context [Z.eqb ?a ?b] =>
             destruct (Z.eqb_spec a b); try lia
         | |- context [Z.geb ?a ?b] =>
             first [ rewrite (geb_true a b) by lia
                   | rewrite (geb_false a b) by lia ]
         end.

Section TransportFacts.

Import Exceptions Transport.

(** The message of a 400: the listed messages joined with ["; "] when the
    body decodes to an object holding a list of strings under
    ["errorMessages"]. *)
Lemma error_message_listed (default : string) (r : Response.t) (d : dict)
    (msgs : list string) :
  Response.json r = inr (JObj d) ->
  dict_get "errorMessages" d = Some (JArr (map JStr msgs)) ->
  error_message default r = PyStr.join "; " msgs.
Proof.
  intros Hj Hd. unfold error_message. rewrite Hj. simpl.
  unfold dict_mem. rewrite Hd. unfold py_join. simpl.
  now rewrite all_str_map_JStr.
Qed.

(** The default message stays when the body does not decode, or decodes
    to an object without the key. *)
Lemma error_message_undecodable (default : string) (r : Response.t)
    (e : string) :
  Response.json r = inl e -> error_message default r = default.
Proof. intros Hj. unfold error_message. now rewrite Hj. Qed.

Lemma error_message_no_key (default : string) (r : Response.t) (d : dict) :
  Response.json r = inr (JObj d) ->
  dict_get "errorMessages" d = None ->
  error_message default r = default.
Proof.
  intros Hj Hd. unfold error_message. rewrite Hj. simpl.
  unfold dict_mem. now rewrite Hd.
Qed.

Variable W : Type.
Variable send : Request -> W -> outcome * W.

Lemma make_request_responded (method endpoint : string) (params : option dict)
    (json_data : option json) (w w' : W) (r : Response.t) :
  send (mkRequest method endpoint params json_data) w = (Responded r, w') ->
  _make_request W send method endpoint params json_data w
  = (handle_response r, w').
Proof. intros H. unfold _make_request. now rewrite H. Qed.

(** A call that gets no response raises the base error, without a code. *)
Lemma make_request_failed (method endpoint : string) (params : option dict)
    (json_data : option json) (w w' : W) (text : string) :
  send (mkRequest method endpoint params json_data) w = (RequestError text, w') ->
  _make_request W send method endpoint params json_data w
  = (Raise (Jira (mkJiraAPIError BaseAPIError ("Request failed: " ++ text)
                    None [])), w').
Proof. intros H. unfold _make_request. now rewrite H. Qed.

(** C2 (amended): for every response [r] that [_make_request] receives,
    - status 401, 403, 404 and 429 raise the authentication, permission,
      not-found and rate-limit errors with their fixed messages;
    - status 400 raises the validation error, whose message is the
      ["errorMessages"] list of the body joined with ["; "] when the body
      holds one, and ["Bad request"] when the body does not decode or has no
      such key;
    - every status from 500 up raises the server error;
    - on a status below 400, a 204 or an empty body returns the empty object;
    - on a status below 400 other than 204, a non-empty body that fails to
      decode raises the base error of the hierarchy, with no status code
      and the message ["Failed to parse response JSON: <text>"]: the class
      a failed connection raises too, not a kind of its own. *)
Theorem response_classification (method endpoint : string)
    (params : option dict) (json_data : option json) (w w' : W)
    (r : Response.t)
    (Hsend : send (mkRequest method endpoint params json_data) w
             = (Responded r, w')) :
  let sc := Response.status_code r in
  let result := _make_request W send method endpoint params json_data w in
  (sc = 401%Z ->
     result = (Raise (Jira (JiraAuthenticationError
                              "Invalid credentials or expired token")), w'))
  /\ (sc = 403%Z ->
     result = (Raise (Jira (JiraPermissionError
                              "Insufficient permissions for this operation")), w'))
  /\ (sc = 404%Z ->
     result = (Raise (Jira (JiraNotFoundError "Resource not found")), w'))
  /\ (sc = 400%Z ->
     result = (Raise (Jira (JiraValidationError
                              (error_message "Bad request" r))), w')
     /\ (forall d msgs,
           Response.json r = inr (JObj d) ->
           dict_get "errorMessages" d = Some (JArr (map JStr msgs)) ->
           error_message "Bad request" r = PyStr.join "; " msgs)
     /\ (forall d,
           Response.json r = inr (JObj d) ->
           dict_get "errorMessages" d = None ->
           error_message "Bad request" r = "Bad request")
     /\ (forall e,
           Response.json r = inl e ->
           error_message "Bad request" r = "Bad request"))
  /\ (sc = 429%Z ->
     result = (Raise (Jira (JiraRateLimitError "Rate limit exceeded")), w'))
  /\ ((500 <= sc)%Z ->
     result = (Raise (Jira (JiraServerError
                              ("Server error: " ++ PyStr.of_int sc))), w'))
  /\ ((sc < 400)%Z -> sc = 204%Z \/ Response.content r = "" ->
     result = (Ok (JObj []), w'))
  /\ ((sc < 400)%Z -> sc <> 204%Z -> Response.content r <> "" ->
     forall e, Response.json r = inl e ->
     result = (Raise (Jira (mkJiraAPIError BaseAPIError
                              ("Failed to parse response JSON: " ++ e)
                              None [])), w')).
Proof.
  intros sc result. subst result.
  rewrite (make_request_responded _ _ _ _ _ _ _ Hsend).
  unfold handle_response. fold sc.
  repeat match goal with |- _ /\ _ => split end.
  - intros ->. reflexivity.
  - intros ->. reflexivity.
  - intros ->. reflexivity.
  - intros ->.
    repeat match goal with |- _ /\ _ => split end.
    + reflexivity.
    + intros d msgs. apply error_message_listed.
    + intros d. apply error_message_no_key.
    + intros e. apply error_message_undecodable.
  - intros ->. reflexivity.
  - intros Hge. status_tests. reflexivity.
  - intros Hlt [H204 | Hempty].
    + rewrite H204. reflexivity.
    + status_tests; rewrite Hempty; reflexivity.
  - intros Hlt Hne Hcontent e He. status_tests.
    rewrite (truthy_nonempty _ Hcontent). simpl. now rewrite He.
Qed.

End TransportFacts.

Lemma response_classification_witness :
  Transport._make_request unit
    (Mock.replies (Transport.Responded (Response.mk 204 "" (inl "no body"))))
    "PUT" "issue/PROJ-1" None None tt
  = (Ok (JObj []), tt).
Proof.
  assert (Hsend :
    Mock.replies (Transport.Responded (Response.mk 204 "" (inl "no body")))
      (Transport.mkRequest "PUT" "issue/PROJ-1" None None) tt
    = (Transport.Responded (Response.mk 204 "" (inl "no body")), tt))
    by reflexivity.
  destruct (response_classification unit _ _ _ _ _ _ _ _ Hsend)
    as (_ & _ & _ & _ & _ & _ & Hok & _).
  apply Hok; [reflexivity | left; reflexivity].
Defined.

(** C2, as stated, fails on two points.  A 200 response whose body does
    not decode raises the base error without a status code, exactly what a
    call that got no response raises, so a caller cannot tell a decoding
    failure from a transport failure by kind.  And an empty body is an empty
    success only on a success status: a 401 with an empty body raises. *)
Lemma decode_failure_is_not_a_distinct_kind :
  Transport._make_request unit
    (Mock.replies
       (Transport.Responded (Response.mk 200 "<html>" (inl "Expecting value"))))
    "GET" "issue/PROJ-1" None None tt
  = (Raise (Exceptions.Jira
       (Exceptions.mkJiraAPIError Exceptions.BaseAPIError
          "Failed to parse response JSON: Expecting value" None [])), tt)
  /\ Transport._make_request unit
       (Mock.replies (Transport.RequestError "timed out"))
       "GET" "issue/PROJ-1" None None tt
     = (Raise (Exceptions.Jira
          (Exceptions.mkJiraAPIError Exceptions.BaseAPIError
             "Request failed: timed out" None [])), tt)
  /\ Transport._make_request unit
       (Mock.replies (Transport.Responded (Response.mk 401 "" (inl ""))))
       "GET" "issue/PROJ-1" None None tt
     = (Raise (Exceptions.Jira
          (Exceptions.JiraAuthenticationError
             "Invalid credentials or expired token")), tt)
  /\ Transport._make_request unit
       (Mock.replies (Transport.Responded (Response.mk 401 "" (inl ""))))
       "GET" "issue/PROJ-1" None None tt
     <> (Ok (JObj []), tt).
Proof. repeat split; try reflexivity. discriminate. Qed.

(** ** Issue-type resolution ([JiraClient.get_issue_type_id_by_name]) *)

Section IssueTypeResolution.

Import Exceptions Transport.

Lemma find_issue_type_typed (name : string) (types : list json)
    (typed : list (string * string)) :
  SpecText.typed_as types typed ->
  find_issue_type name types
  = Ok (option_map (fun p => JStr (fst p))
          (find (fun p => SpecText.same_name (snd p) name) typed)).
Proof.
  induction 1 as [|v [i n] types typed (d & -> & Hid & Hname) _ IH]; simpl.
  - reflexivity.
  - simpl in Hid, Hname. unfold dict_get_default. rewrite Hname.
    unfold SpecText.same_name.
    destruct (String.eqb (PyStr.lower n) (PyStr.lower name)).
    + now rewrite Hid.
    + exact IH.
Qed.

Lemma available_types_typed (types : list json) (typed : list (string * string)) :
  SpecText.typed_as types typed ->
  available_types types = Ok (map JStr (map snd typed)).
Proof.
  induction 1 as [|v [i n] types typed (d & -> & Hid & Hname) _ IH]; simpl.
  - reflexivity.
  - rewrite IH. unfold dict_get_default. simpl in Hname. now rewrite Hname.
Qed.

Variable W : Type.
Variable send : Request -> W -> outcome * W.

(** C4: when the project document lists the issue types [typed] (ids and
    names, in the order the remote system returned them), resolving
    [issue_type_name] returns the id of the first type whose name equals it
    once both are lower-cased; when there is none it raises the validation
    error (status 400) whose message ends with the names of all the types,
    in their original case, joined with [", "] in list order. *)
Theorem issue_type_resolution (project_key issue_type_name : string)
    (w w' : W) (r : Response.t) (project_data : dict) (types : list json)
    (typed : list (string * string))
    (Hsend : send (mkRequest "GET" ("project/" ++ project_key) None None) w
             = (Responded r, w'))
    (Hok : handle_response r = Ok (JObj project_data))
    (Htypes : dict_get "issueTypes" project_data = Some (JArr types))
    (Htyped : SpecText.typed_as types typed) :
  get_issue_type_id_by_name W send project_key issue_type_name w
  = match find (fun p => SpecText.same_name (snd p) issue_type_name) typed with
    | Some (id, _) => (Ok (JStr id), w')
    | None =>
        (Raise (Jira (JiraValidationError
           ("Issue type '" ++ issue_type_name ++ "' not found in project '"
            ++ project_key ++ "'. " ++ "Available types: "
            ++ PyStr.join ", " (map snd typed)))), w')
    end.
Proof.
  unfold get_issue_type_id_by_name, get_project_issue_types, bind.
  rewrite (make_request_responded W send _ _ _ _ _ _ _ Hsend), Hok.
  unfold ret, dict_get_default. rewrite Htypes. simpl.
  unfold lift. rewrite (find_issue_type_typed _ _ _ Htyped).
  destruct (find _ typed) as [[id n]|]; simpl; [reflexivity|].
  rewrite (available_types_typed _ _ Htyped), all_str_map_JStr.
  reflexivity.
Qed.

End IssueTypeResolution.

Lemma epic_and_bug_typed :
  SpecText.typed_as Mock.epic_and_bug [("10000", "Epic"); ("10004", "Bug")].
Proof.
  repeat constructor; eexists; repeat split; reflexivity.
Qed.

(** The example of the spec: ["bug"], ["Bug"] and ["BUG"] all resolve to
    ["10004"], and ["Feature"] fails with a message that holds
    ["Epic, Bug"]. *)
Lemma issue_type_resolution_witness :
  Transport.get_issue_type_id_by_name unit Mock.epic_and_bug_project
    "PROJ" "bug" tt
    = (Ok (JStr "10004"), tt)
  /\ Transport.get_issue_type_id_by_name unit Mock.epic_and_bug_project
       "PROJ" "Bug" tt
     = (Ok (JStr "10004"), tt)
  /\ Transport.get_issue_type_id_by_name unit Mock.epic_and_bug_project
       "PROJ" "BUG" tt
     = (Ok (JStr "10004"), tt)
  /\ Transport.get_issue_type_id_by_name unit Mock.epic_and_bug_project
       "PROJ" "Feature" tt
     = (Raise (Exceptions.Jira (Exceptions.JiraValidationError
          "Issue type 'Feature' not found in project 'PROJ'. Available types: Epic, Bug")),
        tt)
  /\ PyStr.contains "Epic, Bug"
       "Issue type 'Feature' not found in project 'PROJ'. Available types: Epic, Bug"
     = true.
Proof.
  assert (Hres : forall name,
    Transport.get_issue_type_id_by_name unit Mock.epic_and_bug_project
      "PROJ" name tt
    = match find (fun p => SpecText.same_name (snd p) name)
              [("10000", "Epic"); ("10004", "Bug")] with
      | Some (id, _) => (Ok (JStr id), tt)
      | None =>
          (Raise (Exceptions.Jira (Exceptions.JiraValidationError
             ("Issue type '" ++ name ++ "' not found in project '"
              ++ "PROJ" ++ "'. " ++ "Available types: "
              ++ PyStr.join ", " (map snd [("10000", "Epic"); ("10004", "Bug")])))),
           tt)
      end).
  { intros name.
    apply (issue_type_resolution unit Mock.epic_and_bug_project "PROJ" name
             tt tt (Mock.project_response Mock.epic_and_bug)
             [ ("id", JStr "10000"); ("key", JStr "PROJ");
               ("issueTypes", JArr Mock.epic_and_bug) ]
             Mock.epic_and_bug);
      [reflexivity | reflexivity | reflexivity | exact epic_and_bug_typed]. }
  repeat match goal with |- _ /\ _ => split end;
    try (rewrite Hres; reflexivity).
  reflexivity.
Defined.

(** ** Services ([services/issue_service.py], [services/user_service.py]) *)

Section ServiceFacts.

Import Exceptions.

Context {W Issue : Type}.
Variable client : JiraClient.t W Issue.

Lemma find_no_match {A : Type} (f : A -> bool) (l : list A) :
  (forall x, In x l -> f x = false) -> find f l = None.
Proof.
  induction l as [|a l IH]; simpl; intros H; [reflexivity|].
  rewrite (H a (or_introl eq_refl)). apply IH. intros x Hx. apply H. now right.
Qed.

(** The lookup by email answers [None] when no returned user has an
    address equal to the request once both are lower-cased. *)
Lemma get_user_by_email_none (email : string) (users : list User.t) (w w1 : W) :
  JiraClient.search_users client email 1%Z w = (Ok users, w1) ->
  (forall u a, In u users -> User.email_address u = Some a ->
               PyStr.lower a <> PyStr.lower email) ->
  UserService.get_user_by_email client email w = (Ok None, w1).
Proof.
  intros Hsearch Hnone. unfold UserService.get_user_by_email, bind.
  rewrite Hsearch. unfold ret. f_equal. f_equal.
  apply find_no_match. intros u Hu. unfold UserService.email_matches.
  destruct (User.email_address u) as [a|] eqn:Ha; [|reflexivity].
  apply andb_false_iff. right. apply String.eqb_neq. now apply (Hnone u a).
Qed.

(** C10: when [assignee_email] is not empty and the search returns no user
    whose address matches it case-insensitively, [create_issue] raises
    nothing of its own: it goes on to the client's [create_issue] with an
    [IssueCreate] whose assignee is [None], so the ["fields"] object of the
    payload built by [to_jira_format] has no ["assignee"] key.
    [assign_issue_by_email] raises [ValueError] in the same situation.
    Case-insensitively means equal after [str.lower()] on both sides. *)
Theorem create_issue_drops_unresolved_assignee
    (project_id summary issue_type_id assignee_email issue_key : string)
    (description priority_id : option string) (labels : option (list string))
    (users : list User.t) (w w1 : W)
    (Hemail : assignee_email <> "")
    (Hsearch : JiraClient.search_users client assignee_email 1%Z w
               = (Ok users, w1))
    (Hnone : forall u a, In u users -> User.email_address u = Some a ->
                         PyStr.lower a <> PyStr.lower assignee_email) :
  let issue_data :=
    IssueCreate.mk project_id summary description issue_type_id priority_id
      None None (match labels with Some ((_ :: _) as l) => l | _ => [] end) in
  IssueService.create_issue client project_id summary issue_type_id
    description priority_id (Some assignee_email) labels w
  = JiraClient.create_issue client issue_data w1
  /\ (exists fields,
        IssueCreate.to_jira_format issue_data = JObj [("fields", JObj fields)]
        /\ dict_get "assignee" fields = None)
  /\ IssueService.assign_issue_by_email client issue_key assignee_email w
     = (Raise (ValueError ("User with email '" ++ assignee_email
                           ++ "' not found")), w1).
Proof.
  intros issue_data. subst issue_data.
  pose proof (get_user_by_email_none _ _ _ _ Hsearch Hnone) as Hlookup.
  repeat match goal with |- _ /\ _ => split end.
  - unfold IssueService.create_issue.
    rewrite (truthy_nonempty _ Hemail). unfold bind at 1. unfold bind at 1.
    rewrite Hlookup. reflexivity.
  - eexists. split; [apply create_payload_envelope|].
    unfold IssueCreate.fields. repeat other_key.
    cbn [IssueCreate.assignee_account_id when_set]. repeat other_key.
    reflexivity.
  - unfold IssueService.assign_issue_by_email, bind.
    rewrite Hlookup. reflexivity.
Qed.

(** The loop of [transition_issue_by_name] leaves the first transition
    whose name matches. *)
Lemma transition_by_name_found (issue_key transition_name : string)
    (comment resolution_name : option string)
    (transitions : list IssueTransition.t) (t : IssueTransition.t) (w w1 : W) :
  JiraClient.get_issue_transitions client issue_key w = (Ok transitions, w1) ->
  find (IssueService.name_matches transition_name) transitions = Some t ->
  IssueTransition.id t <> "" ->
  IssueService.transition_issue_by_name client issue_key transition_name
    comment resolution_name w
  = JiraClient.transition_issue client issue_key
      (IssueTransitionRequest.mk (IssueTransition.id t) comment resolution_name)
      w1.
Proof.
  intros Hget Hfind Hid.
  unfold IssueService.transition_issue_by_name,
    IssueService.get_available_transitions, bind.
  rewrite Hget, Hfind. simpl. now rewrite (truthy_nonempty _ Hid).
Qed.

Lemma transition_by_name_missing (issue_key transition_name : string)
    (comment resolution_name : option string)
    (transitions : list IssueTransition.t) (w w1 : W) :
  JiraClient.get_issue_transitions client issue_key w = (Ok transitions, w1) ->
  find (IssueService.name_matches transition_name) transitions = None ->
  IssueService.transition_issue_by_name client issue_key transition_name
    comment resolution_name w
  = (Raise (ValueError
       ("Transition '" ++ transition_name ++ "' not found. "
        ++ "Available transitions: "
        ++ PyStr.join ", " (map IssueTransition.name transitions))), w1).
Proof.
  intros Hget Hfind.
  unfold IssueService.transition_issue_by_name,
    IssueService.get_available_transitions, bind.
  rewrite Hget, Hfind. reflexivity.
Qed.

(** C3 (amended): [transition_issue_by_name] reads the live transition
    list and compares names after lower-casing both sides.  With the first
    matching transition (its id not empty) it goes on to the client's
    [transition_issue] with that id; with no match it raises the built-in
    [ValueError] (an error outside the [JiraAPIError] hierarchy, not the
    validation error of issue-type resolution) whose message ends with the
    names of all available transitions joined with [", "]. *)
Theorem transition_resolution (issue_key transition_name : string)
    (comment resolution_name : option string)
    (transitions : list IssueTransition.t) (w w1 : W)
    (Hget : JiraClient.get_issue_transitions client issue_key w
            = (Ok transitions, w1)) :
  match find (fun t => SpecText.same_name (IssueTransition.name t)
                         transition_name) transitions with
  | Some t =>
      IssueTransition.id t <> "" ->
      IssueService.transition_issue_by_name client issue_key transition_name
        comment resolution_name w
      = JiraClient.transition_issue client issue_key
          (IssueTransitionRequest.mk (IssueTransition.id t) comment
             resolution_name) w1
  | None =>
      IssueService.transition_issue_by_name client issue_key transition_name
        comment resolution_name w
      = (Raise (ValueError
           ("Transition '" ++ transition_name ++ "' not found. "
            ++ "Available transitions: "
            ++ PyStr.join ", " (map IssueTransition.name transitions))), w1)
      /\ (forall msg c, isinstance (ValueError msg) c = false)
  end.
Proof.
  destruct (find _ transitions) as [t|] eqn:Hfind.
  - intros Hid.
    exact (transition_by_name_found _ _ _ _ transitions t _ _ Hget Hfind Hid).
  - split; [|reflexivity].
    exact (transition_by_name_missing _ _ _ _ transitions _ _ Hget Hfind).
Qed.

End ServiceFacts.

Lemma transition_resolution_witness :
  IssueService.transition_issue_by_name
    (Mock.client [] [Mock.start_progress; Mock.done])
    "PROJ-1" "DONE" (Some "Resolving issue") None []
  = (Ok tt,
     [ Mock.GetIssueTransitions "PROJ-1";
       Mock.TransitionIssue "PROJ-1"
         (IssueTransitionRequest.mk "31" (Some "Resolving issue") None) ]).
Proof.
  assert (H : "31" <> "" ->
    IssueService.transition_issue_by_name
      (Mock.client [] [Mock.start_progress; Mock.done])
      "PROJ-1" "DONE" (Some "Resolving issue") None []
    = JiraClient.transition_issue
        (Mock.client [] [Mock.start_progress; Mock.done]) "PROJ-1"
        (IssueTransitionRequest.mk "31" (Some "Resolving issue") None)
        [Mock.GetIssueTransitions "PROJ-1"])
    by exact (transition_resolution
                (Mock.client [] [Mock.start_progress; Mock.done])
                "PROJ-1" "DONE" (Some "Resolving issue") None
                [Mock.start_progress; Mock.done]
                [] [Mock.GetIssueTransitions "PROJ-1"] eq_refl).
  rewrite H; [reflexivity | discriminate].
Defined.

(** C3, as stated, fails: an unknown transition name raises the built-in
    [ValueError], which is no instance of the validation error (nor of any
    class of the hierarchy), while an unknown issue-type name raises the
    validation error. *)
Lemma transition_failure_is_not_validation_error :
  IssueService.transition_issue_by_name
    (Mock.client [] [Mock.start_progress; Mock.done])
    "PROJ-1" "Close" None None []
  = (Raise (Exceptions.ValueError
       "Transition 'Close' not found. Available transitions: Start Progress, Done"),
     [Mock.GetIssueTransitions "PROJ-1"])
  /\ Exceptions.isinstance
       (Exceptions.ValueError
          "Transition 'Close' not found. Available transitions: Start Progress, Done")
       Exceptions.ValidationError = false
  /\ Exceptions.isinstance
       (Exceptions.ValueError
          "Transition 'Close' not found. Available transitions: Start Progress, Done")
       Exceptions.BaseAPIError = false
  /\ Transport.get_issue_type_id_by_name unit Mock.epic_and_bug_project
       "PROJ" "Feature" tt
     = (Raise (Exceptions.Jira (Exceptions.JiraValidationError
          "Issue type 'Feature' not found in project 'PROJ'. Available types: Epic, Bug")),
        tt)
  /\ Exceptions.isinstance
       (Exceptions.Jira (Exceptions.JiraValidationError
          "Issue type 'Feature' not found in project 'PROJ'. Available types: Epic, Bug"))
       Exceptions.ValidationError = true.
Proof. repeat split. Qed.

(** A first match whose id is empty is reported as not found:
    [if not transition_id:] cannot tell it from no match. *)
Lemma transition_with_empty_id_reported_missing :
  IssueService.transition_issue_by_name
    (Mock.client []
       [IssueTransition.mk "" "Done"
          (IssueStatus.mk "10001" "Done" "Work is complete" None) false])
    "PROJ-1" "done" None None []
  = (Raise (Exceptions.ValueError
       "Transition 'done' not found. Available transitions: Done"),
     [Mock.GetIssueTransitions "PROJ-1"]).
Proof. reflexivity. Qed.

Lemma create_issue_drops_unresolved_assignee_witness :
  IssueService.create_issue (Mock.client [Mock.jane] [])
    "10000" "Test story" "10001" (Some "Story description") (Some "2")
    (Some "bob@example.com") (Some ["frontend"; "urgent"]) []
  = (Ok "PROJ-1",
     [ Mock.SearchUsers "bob@example.com" 1;
       Mock.CreateIssue
         (IssueCreate.mk "10000" "Test story" (Some "Story description")
            "10001" (Some "2") None None ["frontend"; "urgent"]) ])
  /\ (exists fields,
        IssueCreate.to_jira_format
          (IssueCreate.mk "10000" "Test story" (Some "Story description")
             "10001" (Some "2") None None ["frontend"; "urgent"])
        = JObj [("fields", JObj fields)]
        /\ dict_get "assignee" fields = None)
  /\ IssueService.assign_issue_by_email (Mock.client [Mock.jane] [])
       "PROJ-1" "bob@example.com" []
     = (Raise (Exceptions.ValueError
          "User with email 'bob@example.com' not found"),
        [Mock.SearchUsers "bob@example.com" 1]).
Proof.
  assert (Hemail : "bob@example.com" <> "") by discriminate.
  assert (Hnone : forall u a,
             In u [Mock.jane] -> User.email_address u = Some a ->
             PyStr.lower a <> PyStr.lower "bob@example.com").
  { intros u a [<- | []] Ha. injection Ha as <-. discriminate. }
  pose proof (create_issue_drops_unresolved_assignee
                (Mock.client [Mock.jane] [])
                "10000" "Test story" "10001" "bob@example.com" "PROJ-1"
                (Some "Story description") (Some "2")
                (Some ["frontend"; "urgent"]) [Mock.jane]
                [] [Mock.SearchUsers "bob@example.com" 1]
                Hemail eq_refl Hnone) as H.
  cbv zeta in H. destruct H as (Hcreate & Hpayload & Hassign).
  split; [|split].
  - rewrite Hcreate. reflexivity.
  - exact Hpayload.
  - exact Hassign.
Defined.

(** ** The unit tests of the repository, replayed on the model *)

Section UnitTests.

Import Exceptions.

(** [test_issue_update_to_jira_format]: add operations precede remove
    operations, and the summary is a single [set]. *)
Example test_issue_update_to_jira_format :
  IssueUpdate.update
    (IssueUpdate.mk (Some "Updated summary") (Some "Updated description")
       ["new"] ["old"] None)
  = [ ("summary", JArr [JObj [("set", JStr "Updated summary")]]);
      ("description",
       JArr [JObj [("set", SpecText.rich_text "Updated description")]]);
      ("labels", JArr [ JObj [("add", JStr "new")];
                        JObj [("remove", JStr "old")] ]) ].
Proof. reflexivity. Qed.

(** [test_issue_create_to_jira_format]. *)
Example test_issue_create_to_jira_format :
  IssueCreate.to_jira_format
    (IssueCreate.mk "10000" "Test issue" (Some "Test description") "10001"
       (Some "3") (Some "12345") None ["bug"])
  = JObj [ ("fields",
      JObj [ ("project", JObj [("id", JStr "10000")]);
             ("summary", JStr "Test issue");
             ("issuetype", JObj [("id", JStr "10001")]);
             ("description", SpecText.rich_text "Test description");
             ("priority", JObj [("id", JStr "3")]);
             ("assignee", JObj [("accountId", JStr "12345")]);
             ("labels", JArr [JStr "bug"]) ]) ].
Proof. reflexivity. Qed.

(** [test_issue_transition_request_to_jira_format]. *)
Example test_issue_transition_request_to_jira_format :
  IssueTransitionRequest.to_jira_format
    (IssueTransitionRequest.mk "11" (Some "Resolving issue") (Some "Fixed"))
  = JObj [ ("transition", JObj [("id", JStr "11")]);
           ("fields", JObj [("resolution", JObj [("name", JStr "Fixed")])]);
           ("update",
            JObj [ ("comment",
              JArr [ JObj [ ("add",
                JObj [("body", SpecText.rich_text "Resolving issue")]) ] ]) ]) ].
Proof. reflexivity. Qed.

(** [test_get_issue_type_id_by_name_success]: ["STORY"] resolves too. *)
Example test_get_issue_type_id_by_name_success :
  Transport.get_issue_type_id_by_name unit
    (Mock.replies (Transport.Responded (Mock.project_response
       [ JObj [("id", JStr "10000"); ("name", JStr "Epic")];
         JObj [("id", JStr "10001"); ("name", JStr "Story")];
         JObj [("id", JStr "10002"); ("name", JStr "Task")];
         JObj [("id", JStr "10004"); ("name", JStr "Bug")] ])))
    "PROJ" "STORY" tt
  = (Ok (JStr "10001"), tt).
Proof. reflexivity. Qed.

(** [test_server_error]: the server error always carries the code 500,
    whatever status the response had. *)
Example test_server_error :
  str (JiraServerError "Database connection failed")
    = "JIRA API Error (500): Database connection failed"
  /\ Transport.handle_response (Response.mk 503 "" (inl ""))
     = Raise (Jira (mkJiraAPIError ServerError "Server error: 503"
                      (Some 500%Z) [])).
Proof. split; reflexivity. Qed.

(** The lookup by email accepts an address that differs only by case. *)
Example create_issue_with_resolved_assignee :
  IssueService.create_issue (Mock.client [Mock.jane] [])
    "10000" "Test story" "10001" None None (Some "jane@example.com") None []
  = (Ok "PROJ-1",
     [ Mock.SearchUsers "jane@example.com" 1;
       Mock.CreateIssue
         (IssueCreate.mk "10000" "Test story" None "10001" None
            (Some "5b10ac8d82e05b22cc7d4ef5") None []) ]).
Proof. reflexivity. Qed.

End UnitTests.

(* ================================================================== *)
(** * Further properties of the code *)
(* ================================================================== *)

(** ** Payload builders *)

Section PayloadShapes.

(** X1: The label operations of an update are the additions, in the caller's
    order, followed by the removals, in the caller's order; nothing is
    merged or dropped when the two lists overlap. *)
Theorem update_label_operations (u : IssueUpdate.t)
    (Hsome : (IssueUpdate.labels_add u ++ IssueUpdate.labels_remove u)%list <> []) :
  dict_get "labels" (IssueUpdate.update u)
  = Some (JArr (map (fun l => JObj [("add", JStr l)]) (IssueUpdate.labels_add u)
                ++ map (fun l => JObj [("remove", JStr l)])
                     (IssueUpdate.labels_remove u))%list).
Proof.
  unfold IssueUpdate.update. other_key.
  destruct (IssueUpdate.labels_add u) as [|a la];
    destruct (IssueUpdate.labels_remove u) as [|r lr];
    [now contradiction Hsome | | |]; simpl; now rewrite dict_get_set_same.
Qed.

Lemma update_label_operations_witness :
  dict_get "labels"
    (IssueUpdate.update (IssueUpdate.mk None None ["a"; "b"] ["b"; "c"] None))
  = Some (JArr [ JObj [("add", JStr "a")]; JObj [("add", JStr "b")];
                 JObj [("remove", JStr "b")]; JObj [("remove", JStr "c")] ]).
Proof.
  apply (update_label_operations
           (IssueUpdate.mk None None ["a"; "b"] ["b"; "c"] None)).
  discriminate.
Defined.

(** X2: The keys of the update object are, in this order, ["summary"],
    ["description"], ["labels"] and ["priority"], each present exactly when
    its field is truthy (a non-empty string; some label to add or remove). *)
Theorem update_keys_in_order (u : IssueUpdate.t) :
  dict_keys (IssueUpdate.update u)
  = ((if PyStr.opt_truthy (IssueUpdate.summary u) then ["summary"] else [])
     ++ (if PyStr.opt_truthy (IssueUpdate.description u)
         then ["description"] else [])
     ++ (match IssueUpdate.labels_add u, IssueUpdate.labels_remove u with
         | [], [] => []
         | _, _ => ["labels"]
         end)
     ++ (if PyStr.opt_truthy (IssueUpdate.priority_id u)
         then ["priority"] else []))%list.
Proof.
  destruct u as [[[|? ?]|] [[|? ?]|] [|? ?] [|? ?] [[|? ?]|]]; reflexivity.
Qed.

(** A non-empty summary is written as the single operation
    [[{"set": s}]], a non-empty priority id as [[{"set": {"id": p}}]]. *)
Theorem update_set_operations (u : IssueUpdate.t) (s p : string)
    (Hs : IssueUpdate.summary u = Some s) (Hsne : s <> "")
    (Hp : IssueUpdate.priority_id u = Some p) (Hpne : p <> "") :
  dict_get "summary" (IssueUpdate.update u)
    = Some (JArr [JObj [("set", JStr s)]])
  /\ dict_get "priority" (IssueUpdate.update u)
     = Some (JArr [JObj [("set", JObj [("id", JStr p)])]]).
Proof.
  unfold IssueUpdate.update. split.
  - repeat other_key. rewrite Hs. now apply dict_get_when_set_same.
  - rewrite Hp. now apply dict_get_when_set_same.
Qed.

Lemma update_set_operations_witness :
  dict_get "summary"
    (IssueUpdate.update
       (IssueUpdate.mk (Some "Updated summary") None [] [] (Some "2")))
    = Some (JArr [JObj [("set", JStr "Updated summary")]])
  /\ dict_get "priority"
       (IssueUpdate.update
          (IssueUpdate.mk (Some "Updated summary") None [] [] (Some "2")))
     = Some (JArr [JObj [("set", JObj [("id", JStr "2")])]]).
Proof.
  apply (update_set_operations
           (IssueUpdate.mk (Some "Updated summary") None [] [] (Some "2"))
           "Updated summary" "2");
    first [reflexivity | discriminate].
Defined.

(** X3: The create payload always carries the project, the summary and the
    issue type as given, empty strings included: the required fields are
    not tested for truthiness. *)
Theorem create_required_fields (c : IssueCreate.t) :
  py_path (IssueCreate.to_jira_format c) ["fields"; "project"]
    = Some (JObj [("id", JStr (IssueCreate.project_id c))])
  /\ py_path (IssueCreate.to_jira_format c) ["fields"; "summary"]
     = Some (JStr (IssueCreate.summary c))
  /\ py_path (IssueCreate.to_jira_format c) ["fields"; "issuetype"]
     = Some (JObj [("id", JStr (IssueCreate.issue_type_id c))])
  /\ dict_keys (match IssueCreate.to_jira_format c with
                | JObj payload => payload
                | _ => []
                end) = ["fields"].
Proof.
  rewrite !create_payload_fields. simpl.
  unfold IssueCreate.fields.
  repeat match goal with |- _ /\ _ => split end;
    repeat other_key; reflexivity.
Qed.

(** The keys of the create fields: the three required ones, then
    ["description"], ["priority"], ["assignee"], ["reporter"] and
    ["labels"], each present exactly when its field is truthy. *)
Theorem create_keys_in_order (c : IssueCreate.t) :
  dict_keys (IssueCreate.fields c)
  = (["project"; "summary"; "issuetype"]
     ++ (if PyStr.opt_truthy (IssueCreate.description c)
         then ["description"] else [])
     ++ (if PyStr.opt_truthy (IssueCreate.priority_id c)
         then ["priority"] else [])
     ++ (if PyStr.opt_truthy (IssueCreate.assignee_account_id c)
         then ["assignee"] else [])
     ++ (if PyStr.opt_truthy (IssueCreate.reporter_account_id c)
         then ["reporter"] else [])
     ++ (match IssueCreate.labels c with [] => [] | _ :: _ => ["labels"] end))%list.
Proof.
  destruct c as [pid sm [[|? ?]|] tid [[|? ?]|] [[|? ?]|] [[|? ?]|] [|? ?]];
    reflexivity.
Qed.

(** X4: Non-empty assignee and reporter ids are written as
    [{"accountId": id}], a non-empty priority as [{"id": p}], and a
    non-empty label list as the list itself, in the caller's order. *)
Theorem create_optional_values (c : IssueCreate.t) :
  (forall a, IssueCreate.assignee_account_id c = Some a -> a <> "" ->
     py_path (IssueCreate.to_jira_format c) ["fields"; "assignee"]
     = Some (JObj [("accountId", JStr a)]))
  /\ (forall r, IssueCreate.reporter_account_id c = Some r -> r <> "" ->
     py_path (IssueCreate.to_jira_format c) ["fields"; "reporter"]
     = Some (JObj [("accountId", JStr r)]))
  /\ (forall p, IssueCreate.priority_id c = Some p -> p <> "" ->
     py_path (IssueCreate.to_jira_format c) ["fields"; "priority"]
     = Some (JObj [("id", JStr p)]))
  /\ (IssueCreate.labels c <> [] ->
     py_path (IssueCreate.to_jira_format c) ["fields"; "labels"]
     = Some (JArr (map JStr (IssueCreate.labels c)))).
Proof.
  rewrite !create_payload_fields. simpl.
  unfold IssueCreate.fields. split; [|split; [|split]].
  - intros a Ha Hne. repeat other_key. rewrite Ha.
    now rewrite dict_get_when_set_same.
  - intros r Hr Hne. repeat other_key. rewrite Hr.
    now rewrite dict_get_when_set_same.
  - intros p Hp Hne. repeat other_key. rewrite Hp.
    now rewrite dict_get_when_set_same.
  - intros Hl. destruct (IssueCreate.labels c) as [|l ls]; [contradiction|].
    simpl. now rewrite dict_get_set_same.
Qed.

Lemma create_optional_values_witness :
  py_path
    (IssueCreate.to_jira_format
       (IssueCreate.mk "10000" "Test issue" None "10001" None
          (Some "12345") None ["bug"; "urgent"]))
    ["fields"; "assignee"]
  = Some (JObj [("accountId", JStr "12345")])
  /\ py_path
       (IssueCreate.to_jira_format
          (IssueCreate.mk "10000" "Test issue" None "10001" None
             (Some "12345") None ["bug"; "urgent"]))
       ["fields"; "labels"]
     = Some (JArr [JStr "bug"; JStr "urgent"]).
Proof.
  destruct (create_optional_values
              (IssueCreate.mk "10000" "Test issue" None "10001" None
                 (Some "12345") None ["bug"; "urgent"]))
    as (Ha & _ & _ & Hl).
  split.
  - apply Ha; [reflexivity | discriminate].
  - apply Hl. discriminate.
Defined.

(** X5: The transition payload: always the transition id; a ["fields"] object
    with the resolution name only for a non-empty resolution; an ["update"]
    object with one comment to add, its body the rich-text document, only
    for a non-empty comment.  With neither, the payload is the transition
    alone. *)
Theorem transition_request_payload (r : IssueTransitionRequest.t) :
  IssueTransitionRequest.to_jira_format r
  = JObj (("transition", JObj [("id", JStr (IssueTransitionRequest.transition_id r))])
          :: (match IssueTransitionRequest.resolution_name r with
              | Some n =>
                  if PyStr.truthy n
                  then [("fields", JObj [("resolution", JObj [("name", JStr n)])])]
                  else []
              | None => []
              end
              ++ match IssueTransitionRequest.comment r with
                 | Some c =>
                     if PyStr.truthy c
                     then [("update",
                            JObj [("comment",
                              JArr [JObj [("add",
                                JObj [("body", SpecText.rich_text c)])]])])]
                     else []
                 | None => []
                 end)%list).
Proof.
  destruct r as [tid [[|? ?]|] [[|? ?]|]]; reflexivity.
Qed.

(** The assignment payload always has the single key ["accountId"]; its
    value is [null] exactly when the account id is [None] or empty. *)
Theorem assignment_payload_single_key (a : IssueAssignment.t) :
  exists v,
    IssueAssignment.to_jira_format a = JObj [("accountId", v)]
    /\ (v = JNull <-> PyStr.opt_truthy (IssueAssignment.account_id a) = false).
Proof.
  destruct a as [[[|ch s]|]]; unfold IssueAssignment.to_jira_format; simpl;
    eexists; (split; [reflexivity|]); split; intros H;
    first [reflexivity | discriminate].
Qed.

End PayloadShapes.

(** ** Transport *)

Section TransportEdges.

Import Exceptions Transport.

Lemma handle_response_raises_jira (r : Response.t) (e : exn) :
  handle_response r = Raise e -> exists j, e = Jira j.
Proof.
  unfold handle_response.
  repeat match goal with
         | |- context [if ?b then _ else _] => destruct b
         end;
    try (intros [= <-]; eexists; reflexivity).
  destruct (Response.json r); intros [= <-]. eexists; reflexivity.
Qed.

Variable W : Type.
Variable send : Request -> W -> outcome * W.

(** X6: What leaves [_make_request].  When the connection answers or
    raises [httpx.RequestError], [_make_request] returns a document or
    raises an error of the [JiraAPIError] hierarchy.  Any other exception
    of [urljoin] or of the connection (one that [except httpx.RequestError]
    does not catch) leaves [_make_request] as it is, whatever its class. *)
Theorem make_request_exceptions (method endpoint : string)
    (params : option dict) (json_data : option json) (w : W) :
  match send (mkRequest method endpoint params json_data) w with
  | (Escaped e, w') =>
      _make_request W send method endpoint params json_data w = (Raise e, w')
  | (_, w') =>
      (exists data,
          _make_request W send method endpoint params json_data w
          = (Ok data, w'))
      \/ (exists j,
          _make_request W send method endpoint params json_data w
          = (Raise (Jira j), w')
          /\ isinstance (Jira j) BaseAPIError = true)
  end.
Proof.
  unfold _make_request.
  destruct (send _ w) as [[r|text|e] w'].
  - destruct (handle_response r) as [v|e] eqn:H.
    + left. now exists v.
    + destruct (handle_response_raises_jira r e H) as [j ->].
      right. exists j. split; reflexivity.
  - right. eexists. split; reflexivity.
  - reflexivity.
Qed.

(** X7: A response with a status of 400 or more never yields a document: the
    call raises, and the error carries the response status for a 4xx and
    the fixed code 500 for every status from 500 up (the real status then
    only shows in the message). *)
Theorem error_status_always_raises (method endpoint : string)
    (params : option dict) (json_data : option json) (w w' : W)
    (r : Response.t)
    (Hsend : send (mkRequest method endpoint params json_data) w
             = (Responded r, w'))
    (Herr : (400 <= Response.status_code r)%Z) :
  exists j,
    _make_request W send method endpoint params json_data w
      = (Raise (Jira j), w')
    /\ status_code j
       = Some (if (500 <=? Response.status_code r)%Z then 500%Z
               else Response.status_code r).
Proof.
  rewrite (make_request_responded W send _ _ _ _ _ _ _ Hsend).
  unfold handle_response.
  destruct (Z.leb_spec 500 (Response.status_code r)).
  - status_tests. eexists; split; reflexivity.
  - destruct (Z.eqb_spec (Response.status_code r) 401) as [->|];
      [eexists; split; reflexivity|].
    destruct (Z.eqb_spec (Response.status_code r) 403) as [->|];
      [eexists; split; reflexivity|].
    destruct (Z.eqb_spec (Response.status_code r) 404) as [->|];
      [eexists; split; reflexivity|].
    destruct (Z.eqb_spec (Response.status_code r) 400) as [E|];
      [eexists; split; [reflexivity | now rewrite E]|].
    destruct (Z.eqb_spec (Response.status_code r) 429) as [->|];
      [eexists; split; reflexivity|].
    status_tests. eexists; split; reflexivity.
Qed.

(** X8: A 4xx status without a class of its own (not 400, 401, 403, 404 or
    429) raises the base error with the response status as its code; the
    message is the joined ["errorMessages"] of the body when it holds a
    list of strings, and ["HTTP <status>"] when the body does not decode. *)
Theorem unmapped_client_error (method endpoint : string)
    (params : option dict) (json_data : option json) (w w' : W)
    (r : Response.t)
    (Hsend : send (mkRequest method endpoint params json_data) w
             = (Responded r, w'))
    (Hlo : (400 < Response.status_code r)%Z)
    (Hhi : (Response.status_code r < 500)%Z)
    (H401 : Response.status_code r <> 401%Z)
    (H403 : Response.status_code r <> 403%Z)
    (H404 : Response.status_code r <> 404%Z)
    (H429 : Response.status_code r <> 429%Z) :
  let sc := Response.status_code r in
  _make_request W send method endpoint params json_data w
    = (Raise (Jira (mkJiraAPIError BaseAPIError
                      (error_message ("HTTP " ++ PyStr.of_int sc) r)
                      (Some sc) [])), w')
  /\ (forall d msgs,
        Response.json r = inr (JObj d) ->
        dict_get "errorMessages" d = Some (JArr (map JStr msgs)) ->
        error_message ("HTTP " ++ PyStr.of_int sc) r = PyStr.join "; " msgs)
  /\ (forall e,
        Response.json r = inl e ->
        error_message ("HTTP " ++ PyStr.of_int sc) r = "HTTP " ++ PyStr.of_int sc).
Proof.
  intros sc. subst sc.
  rewrite (make_request_responded W send _ _ _ _ _ _ _ Hsend).
  unfold handle_response. status_tests.
  split; [reflexivity|]. split.
  - intros d msgs. apply error_message_listed.
  - intros e. apply error_message_undecodable.
Qed.

(** X9: The default message is kept when the decoded body cannot give one:
    the body is [null], a boolean or a number; or its ["errorMessages"] is a
    list that holds something else than strings. *)
Theorem error_message_falls_back (default : string) (r : Response.t)
    (v : json) (Hv : Response.json r = inr v) :
  (v = JNull \/ (exists b, v = JBool b) \/ (exists n, v = JNum n) ->
   error_message default r = default)
  /\ (forall d items,
        v = JObj d ->
        dict_get "errorMessages" d = Some (JArr items) ->
        all_str items = None ->
        error_message default r = default).
Proof.
  unfold error_message. rewrite Hv. split.
  - intros [-> | [[b ->] | [n ->]]]; reflexivity.
  - intros d items -> Hd Hall. simpl. unfold dict_mem. rewrite Hd.
    unfold py_join. simpl. now rewrite Hall.
Qed.

(** X10: When ["errorMessages"] is a single string instead of a list, [join]
    iterates over its characters: the message is the characters of the
    string separated by ["; "]. *)
Theorem error_message_of_a_string (default : string) (r : Response.t)
    (d : dict) (text : string)
    (Hv : Response.json r = inr (JObj d))
    (Hd : dict_get "errorMessages" d = Some (JStr text)) :
  error_message default r = PyStr.join "; " (PyStr.chars text).
Proof.
  unfold error_message. rewrite Hv. simpl. unfold dict_mem. rewrite Hd.
  unfold py_join. simpl. now rewrite all_str_map_JStr.
Qed.

(** On a status below 400 other than 204, a non-empty body that decodes
    is returned as decoded, whatever document it is. *)
Theorem success_returns_decoded_body (method endpoint : string)
    (params : option dict) (json_data : option json) (w w' : W)
    (r : Response.t) (v : json)
    (Hsend : send (mkRequest method endpoint params json_data) w
             = (Responded r, w'))
    (Hok : (Response.status_code r < 400)%Z)
    (H204 : Response.status_code r <> 204%Z)
    (Hbody : Response.content r <> "")
    (Hv : Response.json r = inr v) :
  _make_request W send method endpoint params json_data w = (Ok v, w').
Proof.
  rewrite (make_request_responded W send _ _ _ _ _ _ _ Hsend).
  unfold handle_response. status_tests.
  rewrite (truthy_nonempty _ Hbody). simpl. now rewrite Hv.
Qed.

(** X11: A project document without ["issueTypes"] has no issue types: the list
    is empty, and every name fails to resolve with a validation error whose
    enumeration is empty. *)
Theorem project_without_issue_types (project_key issue_type_name : string)
    (w w' : W) (r : Response.t) (project_data : dict)
    (Hsend : send (mkRequest "GET" ("project/" ++ project_key) None None) w
             = (Responded r, w'))
    (Hok : handle_response r = Ok (JObj project_data))
    (Hnone : dict_get "issueTypes" project_data = None) :
  get_project_issue_types W send project_key w = (Ok (JArr []), w')
  /\ get_issue_type_id_by_name W send project_key issue_type_name w
     = (Raise (Jira (JiraValidationError
          ("Issue type '" ++ issue_type_name ++ "' not found in project '"
           ++ project_key ++ "'. " ++ "Available types: "))), w').
Proof.
  unfold get_issue_type_id_by_name, get_project_issue_types, bind.
  rewrite (make_request_responded W send _ _ _ _ _ _ _ Hsend), Hok.
  unfold ret, dict_get_default. rewrite Hnone. split; reflexivity.
Qed.

(** When the project cannot be read, the resolution raises what the
    transport raised and goes no further. *)
Theorem issue_type_lookup_propagates_error (project_key issue_type_name : string)
    (w w' : W) (r : Response.t) (e : exn)
    (Hsend : send (mkRequest "GET" ("project/" ++ project_key) None None) w
             = (Responded r, w'))
    (Herr : handle_response r = Raise e) :
  get_issue_type_id_by_name W send project_key issue_type_name w = (Raise e, w').
Proof.
  unfold get_issue_type_id_by_name, get_project_issue_types, bind.
  now rewrite (make_request_responded W send _ _ _ _ _ _ _ Hsend), Herr.
Qed.

(** X12: When the first issue type whose name matches has no ["id"], the
    resolution raises the built-in [KeyError], not a validation error, even
    if a later type with the same name has one. *)
Theorem matching_type_without_id (project_key issue_type_name : string)
    (w w' : W) (r : Response.t) (project_data issue_type : dict)
    (before rest : list json) (typed : list (string * string)) (n : string)
    (Hsend : send (mkRequest "GET" ("project/" ++ project_key) None None) w
             = (Responded r, w'))
    (Hok : handle_response r = Ok (JObj project_data))
    (Htypes : dict_get "issueTypes" project_data
              = Some (JArr (before ++ JObj issue_type :: rest)%list))
    (Hbefore : SpecText.typed_as before typed)
    (Hmiss : find (fun p => SpecText.same_name (snd p) issue_type_name) typed
             = None)
    (Hname : dict_get "name" issue_type = Some (JStr n))
    (Hmatch : SpecText.same_name n issue_type_name = true)
    (Hid : dict_get "id" issue_type = None) :
  get_issue_type_id_by_name W send project_key issue_type_name w
  = (Raise (KeyError "id"), w').
Proof.
  unfold get_issue_type_id_by_name, get_project_issue_types, bind.
  rewrite (make_request_responded W send _ _ _ _ _ _ _ Hsend), Hok.
  unfold ret, dict_get_default. rewrite Htypes. simpl. unfold lift.
  assert (Hloop : find_issue_type issue_type_name
                    (before ++ JObj issue_type :: rest)%list
                  = Raise (KeyError "id")).
  { clear Htypes. revert Hmiss.
    induction Hbefore as [|v [i m] types typed' (d & -> & Hi & Hm) _ IH];
      simpl; intros Hmiss.
    - unfold dict_get_default. rewrite Hname.
      unfold SpecText.same_name in Hmatch. now rewrite Hmatch, Hid.
    - simpl in Hi, Hm, Hmiss. unfold dict_get_default. rewrite Hm.
      unfold SpecText.same_name in Hmiss.
      destruct (String.eqb (PyStr.lower m) (PyStr.lower issue_type_name));
        [discriminate | now apply IH]. }
  now rewrite Hloop.
Qed.

(** [update_issue] makes one PUT on the issue with the update payload and
    returns [None]: the document of the response is dropped, and the issue
    is not read back.  An empty delta is sent like any other. *)
Theorem update_issue_sends_one_put (issue_key : string) (u : IssueUpdate.t)
    (w w' : W) (r : Response.t) (v : json)
    (Hsend : send (mkRequest "PUT" ("issue/" ++ issue_key) None
                     (Some (JObj [("update", JObj (IssueUpdate.update u))]))) w
             = (Responded r, w'))
    (Hok : handle_response r = Ok v) :
  update_issue W send issue_key u w = (Ok tt, w').
Proof.
  unfold update_issue, bind.
  change (IssueUpdate.to_jira_format u)
    with (JObj [("update", JObj (IssueUpdate.update u))]).
  now rewrite (make_request_responded W send _ _ _ _ _ _ _ Hsend), Hok.
Qed.

End TransportEdges.

Lemma error_status_always_raises_witness :
  exists j,
    Transport._make_request unit
      (Mock.replies (Transport.Responded (Response.mk 503 "" (inl ""))))
      "GET" "issue/PROJ-1" None None tt
    = (Raise (Exceptions.Jira j), tt)
    /\ Exceptions.status_code j = Some 500%Z.
Proof.
  apply (error_status_always_raises unit
           (Mock.replies (Transport.Responded (Response.mk 503 "" (inl ""))))
           "GET" "issue/PROJ-1" None None tt tt (Response.mk 503 "" (inl "")));
    [reflexivity | simpl; lia].
Defined.

Lemma unmapped_client_error_witness :
  Transport._make_request unit
    (Mock.replies
       (Transport.Responded
          (Response.mk 409 "conflict"
             (inr (JObj [("errorMessages",
                          JArr [JStr "Version exists"; JStr "Try another name"])])))))
    "POST" "version" None None tt
  = (Raise (Exceptions.Jira
       (Exceptions.mkJiraAPIError Exceptions.BaseAPIError
          "Version exists; Try another name" (Some 409%Z) [])), tt).
Proof.
  pose proof (unmapped_client_error unit
    (Mock.replies
       (Transport.Responded
          (Response.mk 409 "conflict"
             (inr (JObj [("errorMessages",
                          JArr [JStr "Version exists"; JStr "Try another name"])])))))
    "POST" "version" None None tt tt _ eq_refl) as H.
  simpl in H.
  destruct H as [H _]; try lia. exact H.
Defined.

Lemma error_message_falls_back_witness :
  Transport.error_message "Bad request"
    (Response.mk 400 "null" (inr JNull)) = "Bad request"
  /\ Transport.error_message "Bad request"
       (Response.mk 400 "document"
          (inr (JObj [("errorMessages", JArr [JStr "a"; JNum 7])])))
     = "Bad request".
Proof.
  split.
  - destruct (error_message_falls_back "Bad request"
                (Response.mk 400 "null" (inr JNull)) JNull eq_refl) as [H _].
    apply H. now left.
  - destruct (error_message_falls_back "Bad request"
                (Response.mk 400 "document"
                   (inr (JObj [("errorMessages", JArr [JStr "a"; JNum 7])])))
                _ eq_refl) as [_ H].
    apply (H [("errorMessages", JArr [JStr "a"; JNum 7])] [JStr "a"; JNum 7]);
      reflexivity.
Defined.

Lemma error_message_of_a_string_witness :
  Transport.error_message "Bad request"
    (Response.mk 400 "document" (inr (JObj [("errorMessages", JStr "No")])))
  = "N; o".
Proof.
  apply (error_message_of_a_string "Bad request"
           (Response.mk 400 "document" (inr (JObj [("errorMessages", JStr "No")])))
           [("errorMessages", JStr "No")] "No");
    reflexivity.
Defined.

Lemma success_returns_decoded_body_witness :
  Transport._make_request unit
    (Mock.replies (Transport.Responded (Mock.ok_with (JArr [JNum 1; JNull]))))
    "GET" "issuetype" None None tt
  = (Ok (JArr [JNum 1; JNull]), tt).
Proof.
  apply (success_returns_decoded_body unit
           (Mock.replies
              (Transport.Responded (Mock.ok_with (JArr [JNum 1; JNull]))))
           "GET" "issuetype" None None tt tt
           (Mock.ok_with (JArr [JNum 1; JNull])));
    first [reflexivity | discriminate | (simpl; lia)].
Defined.

Lemma project_without_issue_types_witness :
  Transport.get_issue_type_id_by_name unit
    (Mock.replies (Transport.Responded (Mock.ok_with (JObj [("key", JStr "PROJ")]))))
    "PROJ" "Bug" tt
  = (Raise (Exceptions.Jira (Exceptions.JiraValidationError
       "Issue type 'Bug' not found in project 'PROJ'. Available types: ")), tt).
Proof.
  destruct (project_without_issue_types unit
              (Mock.replies
                 (Transport.Responded (Mock.ok_with (JObj [("key", JStr "PROJ")]))))
              "PROJ" "Bug" tt tt
              (Mock.ok_with (JObj [("key", JStr "PROJ")]))
              [("key", JStr "PROJ")] eq_refl eq_refl eq_refl) as [_ H].
  exact H.
Defined.

Lemma issue_type_lookup_propagates_error_witness :
  Transport.get_issue_type_id_by_name unit
    (Mock.replies (Transport.Responded (Response.mk 404 "" (inl ""))))
    "NOPE" "Bug" tt
  = (Raise (Exceptions.Jira (Exceptions.JiraNotFoundError "Resource not found")),
     tt).
Proof.
  apply (issue_type_lookup_propagates_error unit
           (Mock.replies (Transport.Responded (Response.mk 404 "" (inl ""))))
           "NOPE" "Bug" tt tt (Response.mk 404 "" (inl "")));
    reflexivity.
Defined.

Lemma matching_type_without_id_witness :
  Transport.get_issue_type_id_by_name unit
    (Mock.replies
       (Transport.Responded
          (Mock.project_response
             [ JObj [("id", JStr "10000"); ("name", JStr "Epic")];
               JObj [("name", JStr "Bug")];
               JObj [("id", JStr "10004"); ("name", JStr "Bug")] ])))
    "PROJ" "bug" tt
  = (Raise (Exceptions.KeyError "id"), tt).
Proof.
  apply (matching_type_without_id unit _ "PROJ" "bug" tt tt
           (Mock.project_response
              [ JObj [("id", JStr "10000"); ("name", JStr "Epic")];
                JObj [("name", JStr "Bug")];
                JObj [("id", JStr "10004"); ("name", JStr "Bug")] ])
           [ ("id", JStr "10000"); ("key", JStr "PROJ");
             ("issueTypes",
              JArr [ JObj [("id", JStr "10000"); ("name", JStr "Epic")];
                     JObj [("name", JStr "Bug")];
                     JObj [("id", JStr "10004"); ("name", JStr "Bug")] ]) ]
           [("name", JStr "Bug")]
           [ JObj [("id", JStr "10000"); ("name", JStr "Epic")] ]
           [ JObj [("id", JStr "10004"); ("name", JStr "Bug")] ]
           [("10000", "Epic")] "Bug");
    try reflexivity.
  repeat constructor. eexists. repeat split; reflexivity.
Defined.

Lemma update_issue_sends_one_put_witness :
  Transport.update_issue (list Transport.Request)
    (Mock.recording (Transport.Responded Mock.no_content))
    "PROJ-1" (IssueUpdate.mk None None [] [] None) []
  = (Ok tt,
     [ Transport.mkRequest "PUT" "issue/PROJ-1" None
         (Some (JObj [("update", JObj [])])) ]).
Proof.
  apply (update_issue_sends_one_put (list Transport.Request)
           (Mock.recording (Transport.Responded Mock.no_content))
           "PROJ-1" (IssueUpdate.mk None None [] [] None) []
           [ Transport.mkRequest "PUT" "issue/PROJ-1" None
               (Some (JObj [("update", JObj [])])) ]
           Mock.no_content (JObj []));
    reflexivity.
Defined.

(** ** The typed methods of the client *)

Section CoreClientFacts.

Import Exceptions Transport.

Variable W : Type.
Variable send : Request -> W -> outcome * W.
Variable Issue : Type.
Variable validate_user : dict -> string + User.t.
Variable validate_issue : dict -> string + Issue.
Variable validate_transition : dict -> string + IssueTransition.t.
Variable py_format : json -> string.

Lemma handle_response_no_content (r : Response.t) :
  (Response.status_code r < 400)%Z ->
  Response.status_code r = 204%Z \/ Response.content r = "" ->
  handle_response r = Ok (JObj []).
Proof.
  intros Hlt [H204 | Hempty]; unfold handle_response.
  - rewrite H204. reflexivity.
  - status_tests; rewrite Hempty; reflexivity.
Qed.

(** X13: When the answer to the POST holds no usable key (the key is missing,
    [null] or empty, or the body itself was empty), [create_issue] raises
    the base error "Issue created but key not returned" and makes no second
    request, although the remote system accepted the POST. *)
Theorem create_issue_without_key (issue_data : IssueCreate.t) (w w' : W)
    (r : Response.t) (d : dict)
    (Hsend : send (mkRequest "POST" "issue" None
                     (Some (IssueCreate.to_jira_format issue_data))) w
             = (Responded r, w'))
    (Hok : handle_response r = Ok (JObj d))
    (Hkey : Json.truthy (dict_get_default "key" JNull d) = false) :
  CoreClient.create_issue W send Issue validate_issue py_format issue_data w
  = (Raise (Jira (mkJiraAPIError BaseAPIError
                    "Issue created but key not returned" None [])), w').
Proof.
  unfold CoreClient.create_issue, bind.
  rewrite (make_request_responded W send _ _ _ _ _ _ _ Hsend), Hok.
  now rewrite Hkey.
Qed.

(** X14: When the answer to the POST holds a non-empty key, [create_issue] is
    the GET of that issue, made after the POST: what it returns, or
    raises, is what [get_issue] does. *)
Theorem create_issue_reads_back (issue_data : IssueCreate.t) (w w' : W)
    (r : Response.t) (d : dict) (key : string)
    (Hsend : send (mkRequest "POST" "issue" None
                     (Some (IssueCreate.to_jira_format issue_data))) w
             = (Responded r, w'))
    (Hok : handle_response r = Ok (JObj d))
    (Hkey : dict_get "key" d = Some (JStr key))
    (Hne : key <> "") :
  CoreClient.create_issue W send Issue validate_issue py_format issue_data w
  = CoreClient.get_issue W send Issue validate_issue key w'.
Proof.
  unfold CoreClient.create_issue, bind at 1.
  rewrite (make_request_responded W send _ _ _ _ _ _ _ Hsend), Hok.
  unfold dict_get_default. rewrite Hkey. simpl.
  now rewrite (truthy_nonempty _ Hne).
Qed.

(** X15: A record that pydantic refuses is reported as the base error, with no
    status code and the text of the validation after a fixed prefix; a body
    that is not an object is a [TypeError] instead. *)
Theorem get_user_decoding (account_id : string) (w w' : W) (r : Response.t)
    (data : json)
    (Hsend : send (mkRequest "GET" "user"
                     (Some [("accountId", JStr account_id)]) None) w
             = (Responded r, w'))
    (Hok : handle_response r = Ok data) :
  CoreClient.get_user W send validate_user account_id w
  = match data with
    | JObj d =>
        match validate_user d with
        | inr user => (Ok user, w')
        | inl text =>
            (Raise (Jira (mkJiraAPIError BaseAPIError
                            ("Failed to parse user data: " ++ text) None [])),
             w')
        end
    | _ => (Raise TypeError, w')
    end.
Proof.
  unfold CoreClient.get_user, bind.
  rewrite (make_request_responded W send _ _ _ _ _ _ _ Hsend), Hok.
  unfold lift, CoreClient.construct.
  destruct data; try reflexivity.
  destruct (validate_user items); reflexivity.
Qed.

(** X16: A user search answered with no content (a 204, or an empty body on a
    success status) yields no users, so the lookup by email finds nobody. *)
Theorem search_users_without_body (email : string) (w w' : W) (r : Response.t)
    (Hsend : send (mkRequest "GET" "user/search"
                     (Some [("query", JStr email); ("maxResults", JNum 1)])
                     None) w
             = (Responded r, w'))
    (Hstatus : (Response.status_code r < 400)%Z)
    (Hempty : Response.status_code r = 204%Z \/ Response.content r = "") :
  CoreClient.search_users W send validate_user email 1 w = (Ok [], w')
  /\ UserService.get_user_by_email
       (CoreClient.client W send Issue validate_user validate_issue
          validate_transition py_format) email w
     = (Ok None, w').
Proof.
  assert (Hreq : _make_request W send "GET" "user/search"
                   (Some [("query", JStr email); ("maxResults", JNum 1)]) None w
                 = (Ok (JObj []), w')).
  { rewrite (make_request_responded W send _ _ _ _ _ _ _ Hsend).
    now rewrite handle_response_no_content. }
  assert (Hsearch : CoreClient.search_users W send validate_user email 1 w
                    = (Ok [], w')).
  { unfold CoreClient.search_users, bind. now rewrite Hreq. }
  split; [exact Hsearch|].
  unfold UserService.get_user_by_email, bind. simpl.
  now rewrite Hsearch.
Qed.

(** X17: A transitions document without ["transitions"] lists no transition,
    so the transition by name made through this client raises [ValueError]
    with an empty enumeration and sends no POST. *)
Theorem transitions_without_key (issue_key transition_name : string)
    (comment resolution_name : option string) (w w' : W) (r : Response.t)
    (d : dict)
    (Hsend : send (mkRequest "GET" ("issue/" ++ issue_key ++ "/transitions")
                     None None) w
             = (Responded r, w'))
    (Hok : handle_response r = Ok (JObj d))
    (Hnone : dict_get "transitions" d = None) :
  CoreClient.get_issue_transitions W send validate_transition issue_key w
    = (Ok [], w')
  /\ IssueService.transition_issue_by_name
       (CoreClient.client W send Issue validate_user validate_issue
          validate_transition py_format)
       issue_key transition_name comment resolution_name w
     = (Raise (ValueError ("Transition '" ++ transition_name ++ "' not found. "
                           ++ "Available transitions: ")), w').
Proof.
  assert (Hget : CoreClient.get_issue_transitions W send validate_transition
                   issue_key w = (Ok [], w')).
  { unfold CoreClient.get_issue_transitions, bind.
    rewrite (make_request_responded W send _ _ _ _ _ _ _ Hsend), Hok.
    unfold dict_get_default. now rewrite Hnone. }
  split; [exact Hget|].
  unfold IssueService.transition_issue_by_name,
    IssueService.get_available_transitions, bind. simpl.
  now rewrite Hget.
Qed.

(** X18: Unassigning through this client is one PUT on the assignee of the
    issue with the body [{"accountId": null}]. *)
Theorem unassign_sends_null_account (issue_key : string) (w w' : W)
    (r : Response.t) (v : json)
    (Hsend : send (mkRequest "PUT" ("issue/" ++ issue_key ++ "/assignee") None
                     (Some (JObj [("accountId", JNull)]))) w
             = (Responded r, w'))
    (Hok : handle_response r = Ok v) :
  IssueService.unassign_issue
    (CoreClient.client W send Issue validate_user validate_issue
       validate_transition py_format) issue_key w
  = (Ok tt, w').
Proof.
  unfold IssueService.unassign_issue. simpl.
  unfold Transport.assign_issue, bind.
  change (IssueAssignment.to_jira_format (IssueAssignment.mk None))
    with (JObj [("accountId", JNull)]).
  now rewrite (make_request_responded W send _ _ _ _ _ _ _ Hsend), Hok.
Qed.

End CoreClientFacts.

(** ** Services *)

Section MoreServiceFacts.

Import Exceptions.

Context {W Issue : Type}.
Variable client : JiraClient.t W Issue.

(** X19: A user returned by the lookup by email is one of the users the search
    gave (asked with at most one result), and its address is the requested
    one up to case: a candidate the search returned for another reason is
    never accepted. *)
Theorem get_user_by_email_is_exact (email : string) (user : User.t) (w w1 : W)
    (Hfound : UserService.get_user_by_email client email w = (Ok (Some user), w1)) :
  exists users a,
    JiraClient.search_users client email 1%Z w = (Ok users, w1)
    /\ In user users
    /\ User.email_address user = Some a
    /\ a <> ""
    /\ PyStr.lower a = PyStr.lower email.
Proof.
  unfold UserService.get_user_by_email, bind in Hfound.
  destruct (JiraClient.search_users client email 1%Z w) as [[users|e] w2];
    [|discriminate].
  unfold ret in Hfound. injection Hfound as Hfind <-.
  apply find_some in Hfind. destruct Hfind as [Hin Hmatch].
  unfold UserService.email_matches in Hmatch.
  destruct (User.email_address user) as [a|] eqn:Ha; [|discriminate].
  apply andb_true_iff in Hmatch. destruct Hmatch as [Htruthy Heq].
  exists users, a. repeat split; auto.
  - intros ->. discriminate.
  - now apply String.eqb_eq.
Qed.

(** Without an assignee email ([None] or the empty string) [create_issue]
    searches for nobody: it is the client's [create_issue] on the given
    fields, with no assignee, no reporter, and [[]] for missing labels. *)
Theorem create_issue_without_email
    (project_id summary issue_type_id : string)
    (description priority_id assignee_email : option string)
    (labels : option (list string)) (w : W)
    (Hnone : assignee_email = None \/ assignee_email = Some "") :
  IssueService.create_issue client project_id summary issue_type_id
    description priority_id assignee_email labels w
  = JiraClient.create_issue client
      (IssueCreate.mk project_id summary description issue_type_id priority_id
         None None (match labels with Some l => l | None => [] end)) w.
Proof.
  destruct Hnone as [-> | ->]; unfold IssueService.create_issue, bind; simpl;
    destruct labels as [[|l ls]|]; reflexivity.
Qed.

(** With a user whose address matches, [assign_issue_by_email] assigns the
    issue to the account id of the first such user. *)
Theorem assign_issue_by_email_resolved (issue_key email : string)
    (users : list User.t) (user : User.t) (w w1 : W)
    (Hsearch : JiraClient.search_users client email 1%Z w = (Ok users, w1))
    (Hfind : find (UserService.email_matches email) users = Some user) :
  IssueService.assign_issue_by_email client issue_key email w
  = JiraClient.assign_issue client issue_key
      (IssueAssignment.mk (Some (User.account_id user))) w1.
Proof.
  unfold IssueService.assign_issue_by_email, UserService.get_user_by_email, bind.
  rewrite Hsearch. unfold ret. now rewrite Hfind.
Qed.

(** When the transitions cannot be read, the transition by name raises
    what the client raised and attempts no transition. *)
Theorem transition_by_name_propagates_error (issue_key transition_name : string)
    (comment resolution_name : option string) (e : exn) (w w1 : W)
    (Hget : JiraClient.get_issue_transitions client issue_key w = (Raise e, w1)) :
  IssueService.transition_issue_by_name client issue_key transition_name
    comment resolution_name w
  = (Raise e, w1).
Proof.
  unfold IssueService.transition_issue_by_name,
    IssueService.get_available_transitions, bind.
  now rewrite Hget.
Qed.

Variable get_user : string -> M W User.t.

(** X20: [get_user_by_identifier] returns the user found by account id without
    searching; when that lookup raises, whatever the error (a missing user,
    but also refused credentials or a failed connection), the error is
    dropped and the answer is the lookup by email. *)
Theorem get_user_by_identifier_fallback (identifier : string) (w w1 : W) :
  (forall user, get_user identifier w = (Ok user, w1) ->
     UserLookup.get_user_by_identifier client get_user identifier w
     = (Ok (Some user), w1))
  /\ (forall e, get_user identifier w = (Raise e, w1) ->
     UserLookup.get_user_by_identifier client get_user identifier w
     = UserService.get_user_by_email client identifier w1).
Proof.
  unfold UserLookup.get_user_by_identifier, UserLookup.get_user_by_id.
  split; intros x Hx; now rewrite Hx.
Qed.

End MoreServiceFacts.

Section ByTypeNameFacts.

Import Exceptions.

Context {W Issue datetime : Type}.
Variable client : JiraClient.t W Issue.
Variable get_project : string -> M W (Project.t datetime).
Variable get_issue_type_id_by_name : string -> string -> M W string.

(** X21: [create_issue_by_type_name] writes nothing unless both resolutions
    succeed: when the project cannot be read, or when the type name does
    not resolve, it raises that error in the state the failed read left.
    When both succeed it is [create_issue] with the id of the project and
    the resolved type id. *)
Theorem create_issue_by_type_name_fails_fast
    (project_key summary issue_type_name : string)
    (description priority_id assignee_email : option string)
    (labels : option (list string)) (w w1 : W) :
  (forall e, get_project project_key w = (Raise e, w1) ->
     IssueByTypeName.create_issue_by_type_name client get_project
       get_issue_type_id_by_name project_key summary issue_type_name
       description priority_id assignee_email labels w
     = (Raise e, w1))
  /\ (forall project e w2,
       get_project project_key w = (Ok project, w1) ->
       get_issue_type_id_by_name project_key issue_type_name w1 = (Raise e, w2) ->
       IssueByTypeName.create_issue_by_type_name client get_project
         get_issue_type_id_by_name project_key summary issue_type_name
         description priority_id assignee_email labels w
       = (Raise e, w2))
  /\ (forall project issue_type_id w2,
       get_project project_key w = (Ok project, w1) ->
       get_issue_type_id_by_name project_key issue_type_name w1
         = (Ok issue_type_id, w2) ->
       IssueByTypeName.create_issue_by_type_name client get_project
         get_issue_type_id_by_name project_key summary issue_type_name
         description priority_id assignee_email labels w
       = IssueService.create_issue client (Project.id project) summary
           issue_type_id description priority_id assignee_email labels w2).
Proof.
  unfold IssueByTypeName.create_issue_by_type_name.
  split; [|split].
  - intros e He. unfold bind. now rewrite He.
  - intros project e w2 Hp He. unfold bind at 1. rewrite Hp.
    unfold bind at 1. now rewrite He.
  - intros project tid w2 Hp Ht. unfold bind at 1. rewrite Hp.
    unfold bind at 1. now rewrite Ht.
Qed.

End ByTypeNameFacts.

(** ** Project service *)

Section ProjectServiceFacts.

Import Exceptions.

Context {W datetime : Type}.
Variable client : ProjectClient.t W datetime.
Variable py_int : string -> string + Z.

Lemma filter_split_length {A : Type} (f : A -> bool) (l : list A) :
  List.length (filter f l) + List.length (filter (fun x => negb (f x)) l)
  = List.length l.
Proof.
  induction l as [|a l IH]; simpl; [reflexivity|].
  destruct (f a); simpl; lia.
Qed.

(** X22: The release filter is applied to the list the client returned:
    without a filter the list is returned as it is; the released and the
    unreleased versions are the sublists with the flag set and unset, in the
    original order; every version is in exactly one of the two. *)
Theorem version_filter_partitions (project_key : string)
    (versions : list (ProjectVersion.t datetime)) (w w1 : W)
    (Hget : ProjectClient.get_project_versions client project_key w
            = (Ok versions, w1)) :
  ProjectService.get_project_versions client project_key None w
    = (Ok versions, w1)
  /\ ProjectService.get_released_versions client project_key w
     = (Ok (filter (fun v => ProjectVersion.released v) versions), w1)
  /\ ProjectService.get_unreleased_versions client project_key w
     = (Ok (filter (fun v => negb (ProjectVersion.released v)) versions), w1)
  /\ List.length (filter (fun v => ProjectVersion.released v) versions)
     + List.length (filter (fun v => negb (ProjectVersion.released v)) versions)
     = List.length versions
  /\ (forall v, In v versions ->
        (In v (filter (fun v => ProjectVersion.released v) versions)
         /\ ~ In v (filter (fun v => negb (ProjectVersion.released v)) versions))
        \/ (In v (filter (fun v => negb (ProjectVersion.released v)) versions)
            /\ ~ In v (filter (fun v => ProjectVersion.released v) versions))).
Proof.
  unfold ProjectService.get_released_versions,
    ProjectService.get_unreleased_versions,
    ProjectService.get_project_versions, bind.
  rewrite Hget. repeat split.
  - apply filter_split_length.
  - intros v Hin. destruct (ProjectVersion.released v) eqn:Hr.
    + left. split.
      * apply filter_In. now split.
      * intros H. apply filter_In in H. destruct H as [_ H].
        rewrite Hr in H. discriminate.
    + right. split.
      * apply filter_In. split; [exact Hin | now rewrite Hr].
      * intros H. apply filter_In in H. destruct H as [_ H]. congruence.
Qed.

(** X23: [get_version_by_name] compares names exactly (case matters): the
    version it returns is the first of the list with that very name, and it
    returns [None] only when no version has it. *)
Theorem get_version_by_name_is_exact (project_key version_name : string)
    (versions : list (ProjectVersion.t datetime)) (w w1 : W)
    (Hget : ProjectClient.get_project_versions client project_key w
            = (Ok versions, w1)) :
  exists found,
    ProjectService.get_version_by_name client project_key version_name w
      = (Ok found, w1)
    /\ (forall v, found = Some v ->
          exists before after,
            versions = (before ++ v :: after)%list
            /\ ProjectVersion.name v = version_name
            /\ forall u, In u before -> ProjectVersion.name u <> version_name)
    /\ (found = None ->
        forall v, In v versions -> ProjectVersion.name v <> version_name).
Proof.
  unfold ProjectService.get_version_by_name,
    ProjectService.get_project_versions, bind.
  rewrite Hget. unfold ret. eexists. split; [reflexivity|].
  clear Hget. split.
  - induction versions as [|a l IH]; simpl; intros v Hv; [discriminate|].
    destruct (String.eqb_spec (ProjectVersion.name a) version_name) as [E|E].
    + injection Hv as <-. exists [], l.
      split; [reflexivity|]. split; [exact E|]. intros u [].
    + destruct (IH v Hv) as (before & after & -> & Hname & Hbefore).
      exists (a :: before), after.
      split; [reflexivity|]. split; [exact Hname|].
      intros u [<- | Hu]; [exact E | now apply Hbefore].
  - intros Hnone v Hin Hname.
    apply (find_none _ _ Hnone) in Hin. simpl in Hin.
    rewrite Hname, String.eqb_refl in Hin. discriminate.
Qed.

(** X24: [create_version] creates nothing unless the project is read and its
    id is a number: a failed read raises that error, an id that [int]
    refuses raises [ValueError], both without a call to create.  Otherwise
    the version is created for the numeric id. *)
Theorem create_version_fails_fast (project_key version_name : string)
    (description start_date release_date : option string)
    (released archived : bool) (w w1 : W) :
  (forall e, ProjectClient.get_project client project_key w = (Raise e, w1) ->
     ProjectService.create_version client py_int project_key version_name
       description start_date release_date released archived w
     = (Raise e, w1))
  /\ (forall project text,
       ProjectClient.get_project client project_key w = (Ok project, w1) ->
       py_int (Project.id project) = inl text ->
       ProjectService.create_version client py_int project_key version_name
         description start_date release_date released archived w
       = (Raise (ValueError text), w1))
  /\ (forall project n,
       ProjectClient.get_project client project_key w = (Ok project, w1) ->
       py_int (Project.id project) = inr n ->
       ProjectService.create_version client py_int project_key version_name
         description start_date release_date released archived w
       = ProjectClient.create_project_version client
           (ProjectVersionCreate.mk version_name description n archived
              released start_date release_date) w1).
Proof.
  unfold ProjectService.create_version, ProjectService.get_project, bind.
  split; [|split].
  - intros e He. now rewrite He.
  - intros project text Hp Hi. now rewrite Hp, Hi.
  - intros project n Hp Hi. now rewrite Hp, Hi.
Qed.

End ProjectServiceFacts.

(** ** Server *)

Section ServerFacts.

Import Exceptions.

(** X25: Access is granted when no key is configured (or an empty one), and
    otherwise exactly when the request carries credentials whose user name
    is the key: the password is never looked at. *)
Theorem verify_api_key_checks_username_only (server_api_key : option string)
    (credentials : option (string * string)) :
  Server.verify_api_key server_api_key credentials = Server.Returned true
  <-> (server_api_key = None
       \/ server_api_key = Some ""
       \/ exists key password,
            server_api_key = Some key /\ credentials = Some (key, password)).
Proof.
  unfold Server.verify_api_key.
  destruct server_api_key as [[|c k]|]; simpl.
  - split; auto.
  - destruct credentials as [[u pw]|].
    + destruct (String.eqb_spec u (String c k)) as [->|Hne]; simpl.
      * split; [|reflexivity].
        intros _. right. right. exists (String c k), pw. now split.
      * split; [discriminate|].
        intros [H | [H | (key & pw' & Hk & Hc)]]; try discriminate.
        congruence.
    + split; [discriminate|].
      intros [H | [H | (key & pw' & Hk & Hc)]]; discriminate.
  - split; auto.
Qed.

Context {W Issue : Type}.
Variable client : JiraClient.t W Issue.

(** X27: The handler makes one update per given part, the summary first: when
    the summary was written and adding the labels then fails with an error
    of the hierarchy, the handler answers with that error, the summary stays
    written and the removals are not attempted. *)
Theorem server_update_is_not_atomic (issue_key summary : string)
    (adds removes : list string) (e : JiraAPIError) (w w1 w2 : W)
    (Hs : summary <> "") (Ha : adds <> [])
    (Hfirst : JiraClient.update_issue client issue_key
                (IssueUpdate.mk (Some summary) None [] [] None) w
              = (Ok tt, w1))
    (Hsecond : JiraClient.update_issue client issue_key
                 (IssueUpdate.mk None None adds [] None) w1
               = (Raise (Jira e), w2)) :
  Server.update_issue client issue_key
    (IssueUpdate.mk (Some summary) None adds removes None) w
  = (Server.http_error e, w2).
Proof.
  unfold Server.update_issue, Server.guarded. simpl.
  rewrite (truthy_nonempty _ Hs).
  destruct adds as [|a l]; [contradiction|].
  unfold IssueService.update_issue_summary, IssueService.add_labels_to_issue.
  unfold bind at 1. rewrite Hfirst.
  unfold bind at 1. rewrite Hsecond. reflexivity.
Qed.

(** X28: An unknown transition name is not turned into an HTTP error: the
    [ValueError] of the service is no [JiraAPIError], so it passes the
    except clause of the handler. *)
Theorem server_transition_value_error_escapes (issue_key transition_name : string)
    (comment resolution_name : option string)
    (transitions : list IssueTransition.t) (w w1 : W)
    (Hget : JiraClient.get_issue_transitions client issue_key w
            = (Ok transitions, w1))
    (Hnone : find (IssueService.name_matches transition_name) transitions = None) :
  Server.transition_issue client issue_key transition_name comment
    resolution_name w
  = (Server.Uncaught
       (ValueError ("Transition '" ++ transition_name ++ "' not found. "
                    ++ "Available transitions: "
                    ++ PyStr.join ", " (map IssueTransition.name transitions))),
     w1).
Proof.
  unfold Server.transition_issue, Server.guarded. unfold bind at 1.
  rewrite (transition_by_name_missing client _ _ _ _ transitions _ _ Hget Hnone).
  reflexivity.
Qed.

End ServerFacts.

(** ** Server: the handlers from the request on *)

Section EndpointFacts.

Import Exceptions Server.

Context {W Issue : Type}.
Variable get_config : M W (option JiraConfig).
Variable connect : string -> string -> string -> result (JiraClient.t W Issue).
Variable builtin_str : exn -> string.
Variable close : JiraClient.t W Issue -> M W unit.

Lemma guarded_raise {A : Type} (body : M W (reply A)) (e : exn) (w w1 : W) :
  body w = (Raise e, w1) -> guarded body w = (except_clause e, w1).
Proof. intros H. unfold guarded. rewrite H. now destruct e. Qed.

Lemma guarded_ok {A : Type} (body : M W (reply A)) (r : reply A) (w w1 : W) :
  body w = (Ok r, w1) -> guarded body w = (r, w1).
Proof. intros H. unfold guarded. now rewrite H. Qed.

(** Without a configuration no handler gets to its body: each one answers
    with status 500. *)
Lemma handler_without_config {A : Type}
    (body : JiraClient.t W Issue -> M W (reply A)) (w w1 : W) :
  get_config w = (Ok None, w1) ->
  Endpoint.handler get_config connect builtin_str close body w
  = (HTTPException 500
       "JIRA configuration not found. Please configure the server with environment variables."
       [], w1).
Proof.
  intros H. apply guarded_ok.
  unfold Endpoint.get_jira_client, bind. now rewrite H.
Qed.

(** An exception of the constructor, whatever its class, is reported with
    status 500 and its text. *)
Lemma handler_constructor_fails {A : Type}
    (body : JiraClient.t W Issue -> M W (reply A))
    (config : JiraConfig) (e : exn) (w w1 : W) :
  get_config w = (Ok (Some config), w1) ->
  Endpoint.new_JiraClient connect (base_url config) (email config)
    (api_token config) = Raise e ->
  Endpoint.handler get_config connect builtin_str close body w
  = (HTTPException 500
       ("Failed to create JIRA client: " ++ Endpoint.py_str builtin_str e)
       [], w1).
Proof.
  intros H Hnew. apply guarded_ok.
  unfold Endpoint.get_jira_client, bind. now rewrite H, Hnew.
Qed.

(** A base URL without scheme is such a failure: the validation error of
    the constructor is reported as a server error, not as a bad request. *)
Lemma handler_rejects_base_url {A : Type}
    (body : JiraClient.t W Issue -> M W (reply A))
    (config : JiraConfig) (w w1 : W) :
  get_config w = (Ok (Some config), w1) ->
  String.prefix "http://" (base_url config) = false ->
  String.prefix "https://" (base_url config) = false ->
  Endpoint.handler get_config connect builtin_str close body w
  = (HTTPException 500
       "Failed to create JIRA client: JIRA API Error (400): Base URL must start with http:// or https://"
       [], w1).
Proof.
  intros H H1 H2.
  rewrite (handler_constructor_fails body config
             (Jira (JiraValidationError
                      "Base URL must start with http:// or https://"))
             w w1 H); [reflexivity|].
  unfold Endpoint.new_JiraClient. now rewrite H1, H2.
Qed.

(** With a client, a handler is its [with] block under the [except]
    clause, followed by the closing of the client. *)
Lemma handler_with_client {A : Type}
    (body : JiraClient.t W Issue -> M W (reply A))
    (config : JiraConfig) (client : JiraClient.t W Issue) (w w1 : W) :
  get_config w = (Ok (Some config), w1) ->
  Endpoint.new_JiraClient connect (base_url config) (email config)
    (api_token config) = Ok client ->
  Endpoint.handler get_config connect builtin_str close body w
  = match guarded (body client) w1 with
    | (r, w2) =>
        match close client w2 with
        | (Ok _, w3) => (r, w3)
        | (Raise e, w3) => (except_clause e, w3)
        end
    end.
Proof.
  intros H Hnew.
  unfold Endpoint.handler, Endpoint.get_jira_client, Endpoint.with_client,
    guarded, bind.
  rewrite H, Hnew. unfold ret.
  destruct (body client w1) as [[r|e] w2]; [|destruct e]; cbn;
    destruct (close client w2) as [[[]|e'] w3];
    try destruct e'; reflexivity.
Qed.

(** The handlers of [Server] over a client are the handlers from the
    request on, once the client is there and its closing is silent. *)
Lemma update_issue_with_client (issue_key : string) (u : IssueUpdate.t)
    (config : JiraConfig) (client : JiraClient.t W Issue)
    (r : reply json) (w w1 w2 w3 : W) :
  get_config w = (Ok (Some config), w1) ->
  Endpoint.new_JiraClient connect (base_url config) (email config)
    (api_token config) = Ok client ->
  Server.update_issue client issue_key u w1 = (r, w2) ->
  close client w2 = (Ok tt, w3) ->
  Endpoint.update_issue get_config connect builtin_str close issue_key u w
  = (r, w3).
Proof.
  intros H Hnew Hbody Hclose. unfold Endpoint.update_issue.
  rewrite (handler_with_client _ config client w w1 H Hnew).
  unfold Server.update_issue in Hbody. rewrite Hbody. now rewrite Hclose.
Qed.

Lemma search_users_with_client (query : string) (max_results : Z)
    (config : JiraConfig) (client : JiraClient.t W Issue)
    (r : reply (list User.t)) (w w1 w2 w3 : W) :
  get_config w = (Ok (Some config), w1) ->
  Endpoint.new_JiraClient connect (base_url config) (email config)
    (api_token config) = Ok client ->
  Server.search_users client query max_results w1 = (r, w2) ->
  close client w2 = (Ok tt, w3) ->
  Endpoint.search_users get_config connect builtin_str close query
    max_results w
  = (r, w3).
Proof.
  intros H Hnew Hbody Hclose. unfold Endpoint.search_users.
  rewrite (handler_with_client _ config client w w1 H Hnew).
  unfold Server.search_users in Hbody. rewrite Hbody. now rewrite Hclose.
Qed.

Lemma transition_issue_with_client (issue_key transition_name : string)
    (comment resolution_name : option string)
    (config : JiraConfig) (client : JiraClient.t W Issue)
    (r : reply json) (w w1 w2 w3 : W) :
  get_config w = (Ok (Some config), w1) ->
  Endpoint.new_JiraClient connect (base_url config) (email config)
    (api_token config) = Ok client ->
  Server.transition_issue client issue_key transition_name comment
    resolution_name w1 = (r, w2) ->
  close client w2 = (Ok tt, w3) ->
  Endpoint.transition_issue get_config connect builtin_str close issue_key
    transition_name comment resolution_name w
  = (r, w3).
Proof.
  intros H Hnew Hbody Hclose. unfold Endpoint.transition_issue.
  rewrite (handler_with_client _ config client w w1 H Hnew).
  unfold Server.transition_issue in Hbody. rewrite Hbody. now rewrite Hclose.
Qed.

(** X26: The update handler reads only the summary and the two label lists of
    its body: the description and the priority are ignored.  When none of
    the three is given, the handler still builds the client and closes it,
    but calls none of its methods: without a configuration, or when the
    client cannot be built, it answers with status 500; with a client it
    reports success, unless the closing raises. *)
Theorem server_update_ignores_description_and_priority (issue_key : string)
    (u : IssueUpdate.t) (w : W) :
  Endpoint.update_issue get_config connect builtin_str close issue_key u w
  = Endpoint.update_issue get_config connect builtin_str close issue_key
      (IssueUpdate.mk (IssueUpdate.summary u) None (IssueUpdate.labels_add u)
         (IssueUpdate.labels_remove u) None) w
  /\ (PyStr.opt_truthy (IssueUpdate.summary u) = false ->
      IssueUpdate.labels_add u = [] ->
      IssueUpdate.labels_remove u = [] ->
      Endpoint.update_issue get_config connect builtin_str close issue_key u w
      = match get_config w with
        | (Raise e, w1) => (except_clause e, w1)
        | (Ok None, w1) =>
            (HTTPException 500
               "JIRA configuration not found. Please configure the server with environment variables."
               [], w1)
        | (Ok (Some config), w1) =>
            match Endpoint.new_JiraClient connect (base_url config)
                    (email config) (api_token config) with
            | Raise e =>
                (HTTPException 500
                   ("Failed to create JIRA client: "
                    ++ Endpoint.py_str builtin_str e) [], w1)
            | Ok client =>
                match close client w1 with
                | (Raise e, w2) => (except_clause e, w2)
                | (Ok _, w2) =>
                    (Returned
                       (JObj [("message",
                               JStr ("Issue " ++ issue_key
                                     ++ " updated successfully"))]), w2)
                end
            end
        end).
Proof.
  split; [reflexivity|].
  intros Hs Ha Hr.
  destruct (get_config w) as [[[config|]|e] w1] eqn:Hconfig.
  - destruct (Endpoint.new_JiraClient connect (base_url config) (email config)
                (api_token config)) as [client|e] eqn:Hnew.
    + unfold Endpoint.update_issue.
      rewrite (handler_with_client _ config client w w1 Hconfig Hnew).
      unfold guarded. rewrite Ha, Hr.
      destruct (IssueUpdate.summary u) as [[|c s]|]; try discriminate;
        cbn; destruct (close client w1) as [[[]|e] w2]; reflexivity.
    + apply (handler_constructor_fails _ config e w w1 Hconfig Hnew).
  - apply (handler_without_config _ w w1 Hconfig).
  - apply guarded_raise.
    unfold Endpoint.get_jira_client, bind. now rewrite Hconfig.
Qed.

(** X29: The create handler passes no assignee email, so the assignee and the
    reporter of its body never reach the client.  Without a configuration,
    or when the client cannot be built, the handler answers with status
    500 and creates nothing; with a client, the issue is created from the
    other fields alone, the client is closed, and an error of the hierarchy
    is reported with its own status. *)
Theorem server_create_drops_assignee (issue_data : IssueCreate.t) (w : W) :
  Endpoint.create_issue get_config connect builtin_str close issue_data w
  = match get_config w with
    | (Raise e, w1) => (except_clause e, w1)
    | (Ok None, w1) =>
        (HTTPException 500
           "JIRA configuration not found. Please configure the server with environment variables."
           [], w1)
    | (Ok (Some config), w1) =>
        match Endpoint.new_JiraClient connect (base_url config)
                (email config) (api_token config) with
        | Raise e =>
            (HTTPException 500
               ("Failed to create JIRA client: "
                ++ Endpoint.py_str builtin_str e) [], w1)
        | Ok client =>
            match JiraClient.create_issue client
                    (IssueCreate.mk (IssueCreate.project_id issue_data)
                       (IssueCreate.summary issue_data)
                       (IssueCreate.description issue_data)
                       (IssueCreate.issue_type_id issue_data)
                       (IssueCreate.priority_id issue_data)
                       None None (IssueCreate.labels issue_data)) w1 with
            | (created, w2) =>
                match close client w2 with
                | (Raise e, w3) => (except_clause e, w3)
                | (Ok _, w3) =>
                    (match created with
                     | Ok issue => Returned issue
                     | Raise e => except_clause e
                     end, w3)
                end
            end
        end
    end.
Proof.
  destruct (get_config w) as [[[config|]|e] w1] eqn:Hconfig.
  - destruct (Endpoint.new_JiraClient connect (base_url config) (email config)
                (api_token config)) as [client|e] eqn:Hnew.
    + unfold Endpoint.create_issue.
      rewrite (handler_with_client _ config client w w1 Hconfig Hnew).
      unfold guarded, IssueService.create_issue, bind.
      destruct issue_data as [pid sm ds tid pr asg rep [|l ls]]; simpl;
        match goal with
        | |- context [JiraClient.create_issue client ?d w1] =>
            destruct (JiraClient.create_issue client d w1) as [[i|e] w2]
        end;
        try destruct e; cbn;
        destruct (close client w2) as [[[]|e'] w3];
        try destruct e'; reflexivity.
    + apply (handler_constructor_fails _ config e w w1 Hconfig Hnew).
  - apply (handler_without_config _ w w1 Hconfig).
  - apply guarded_raise.
    unfold Endpoint.get_jira_client, bind. now rewrite Hconfig.
Qed.

End EndpointFacts.

Section ServerOverCoreClient.

Import Exceptions Transport.

Variable W : Type.
Variable send : Request -> W -> outcome * W.
Variable Issue : Type.
Variable validate_user : dict -> string + User.t.
Variable validate_issue : dict -> string + Issue.
Variable validate_transition : dict -> string + IssueTransition.t.
Variable py_format : json -> string.

(** X30: Errors that carry no status code reach the caller of the server as
    HTTP 400: a failed connection to the remote system, and a body that does
    not decode, are both reported as a bad request, with the rendering of
    the error as the detail. *)
Theorem server_reports_codeless_errors_as_400 (query : string)
    (max_results : Z) (w w' : W) :
  (forall text,
     send (mkRequest "GET" "user/search"
             (Some [("query", JStr query); ("maxResults", JNum max_results)])
             None) w
     = (RequestError text, w') ->
     Server.search_users
       (CoreClient.client W send Issue validate_user validate_issue
          validate_transition py_format) query max_results w
     = (Server.HTTPException 400
          ("JIRA API Error: Request failed: " ++ text) [], w'))
  /\ (forall r text,
       send (mkRequest "GET" "user/search"
               (Some [("query", JStr query); ("maxResults", JNum max_results)])
               None) w
       = (Responded r, w') ->
       (Response.status_code r < 400)%Z ->
       Response.status_code r <> 204%Z ->
       Response.content r <> "" ->
       Response.json r = inl text ->
       Server.search_users
         (CoreClient.client W send Issue validate_user validate_issue
            validate_transition py_format) query max_results w
       = (Server.HTTPException 400
            ("JIRA API Error: Failed to parse response JSON: " ++ text) [], w')).
Proof.
  split.
  - intros text Hsend.
    unfold Server.search_users, Server.guarded, bind. simpl.
    unfold CoreClient.search_users, bind.
    now rewrite (make_request_failed W send _ _ _ _ _ _ _ Hsend).
  - intros r text Hsend Hlt H204 Hbody Hjson.
    unfold Server.search_users, Server.guarded, bind. simpl.
    unfold CoreClient.search_users, bind.
    rewrite (make_request_responded W send _ _ _ _ _ _ _ Hsend).
    unfold handle_response. status_tests.
    rewrite (truthy_nonempty _ Hbody). simpl. now rewrite Hjson.
Qed.

End ServerOverCoreClient.

(** ** Worked cases of the properties above *)

Lemma create_issue_without_key_witness :
  JiraClient.create_issue
    (Mock.core_client (Mock.answering Mock.no_content Mock.no_content))
    (IssueCreate.mk "10000" "Test issue" None "10001" None None None []) []
  = (Raise (Exceptions.Jira
       (Exceptions.mkJiraAPIError Exceptions.BaseAPIError
          "Issue created but key not returned" None [])),
     [ Transport.mkRequest "POST" "issue" None
         (Some (IssueCreate.to_jira_format
                  (IssueCreate.mk "10000" "Test issue" None "10001" None None
                     None []))) ]).
Proof.
  apply (create_issue_without_key (list Transport.Request)
           (Mock.answering Mock.no_content Mock.no_content) string
           Mock.validate_issue Mock.py_format
           (IssueCreate.mk "10000" "Test issue" None "10001" None None None [])
           [] _ Mock.no_content []);
    reflexivity.
Defined.

Lemma create_issue_reads_back_witness :
  JiraClient.create_issue
    (Mock.core_client
       (Mock.answering
          (Mock.ok_with (JObj [("id", JStr "10100"); ("key", JStr "PROJ-1")]))
          (Mock.ok_with (JObj [("id", JStr "10100"); ("key", JStr "PROJ-1")]))))
    (IssueCreate.mk "10000" "Test issue" None "10001" None None None []) []
  = (Ok "PROJ-1",
     [ Transport.mkRequest "POST" "issue" None
         (Some (IssueCreate.to_jira_format
                  (IssueCreate.mk "10000" "Test issue" None "10001" None None
                     None [])));
       Transport.mkRequest "GET" "issue/PROJ-1" None None ]).
Proof.
  etransitivity.
  - apply (create_issue_reads_back (list Transport.Request)
             (Mock.answering
                (Mock.ok_with (JObj [("id", JStr "10100"); ("key", JStr "PROJ-1")]))
                (Mock.ok_with (JObj [("id", JStr "10100"); ("key", JStr "PROJ-1")])))
             string Mock.validate_issue Mock.py_format
             (IssueCreate.mk "10000" "Test issue" None "10001" None None None [])
             []
             [ Transport.mkRequest "POST" "issue" None
                 (Some (IssueCreate.to_jira_format
                          (IssueCreate.mk "10000" "Test issue" None "10001"
                             None None None []))) ]
             (Mock.ok_with (JObj [("id", JStr "10100"); ("key", JStr "PROJ-1")]))
             [("id", JStr "10100"); ("key", JStr "PROJ-1")] "PROJ-1");
      first [reflexivity | discriminate].
  - reflexivity.
Defined.

Lemma get_user_decoding_witness :
  CoreClient.get_user unit
    (Mock.replies
       (Transport.Responded (Mock.ok_with (JObj [("accountId", JStr "12345")]))))
    Mock.validate_user "12345" tt
  = (Raise (Exceptions.Jira
       (Exceptions.mkJiraAPIError Exceptions.BaseAPIError
          "Failed to parse user data: validation error for User" None [])), tt)
  /\ CoreClient.get_user unit
       (Mock.replies (Transport.Responded (Mock.ok_with (JArr []))))
       Mock.validate_user "12345" tt
     = (Raise Exceptions.TypeError, tt).
Proof.
  split.
  - exact (get_user_decoding unit
             (Mock.replies
                (Transport.Responded
                   (Mock.ok_with (JObj [("accountId", JStr "12345")]))))
             Mock.validate_user "12345" tt tt
             (Mock.ok_with (JObj [("accountId", JStr "12345")]))
             (JObj [("accountId", JStr "12345")]) eq_refl eq_refl).
  - exact (get_user_decoding unit
             (Mock.replies (Transport.Responded (Mock.ok_with (JArr []))))
             Mock.validate_user "12345" tt tt (Mock.ok_with (JArr []))
             (JArr []) eq_refl eq_refl).
Defined.

Lemma search_users_without_body_witness :
  UserService.get_user_by_email
    (Mock.core_client (Mock.recording (Transport.Responded Mock.no_content)))
    "jane@example.com" []
  = (Ok None,
     [ Transport.mkRequest "GET" "user/search"
         (Some [("query", JStr "jane@example.com"); ("maxResults", JNum 1)])
         None ]).
Proof.
  destruct (search_users_without_body (list Transport.Request)
              (Mock.recording (Transport.Responded Mock.no_content)) string
              Mock.validate_user Mock.validate_issue Mock.validate_transition
              Mock.py_format "jane@example.com" []
              [ Transport.mkRequest "GET" "user/search"
                  (Some [("query", JStr "jane@example.com");
                         ("maxResults", JNum 1)]) None ]
              Mock.no_content eq_refl)
    as [_ H]; [simpl; lia | left; reflexivity | exact H].
Defined.

Lemma transitions_without_key_witness :
  IssueService.transition_issue_by_name
    (Mock.core_client
       (Mock.recording (Transport.Responded (Mock.ok_with (JObj [("expand", JStr "transitions")])))))
    "PROJ-1" "Done" None None []
  = (Raise (Exceptions.ValueError
       "Transition 'Done' not found. Available transitions: "),
     [ Transport.mkRequest "GET" "issue/PROJ-1/transitions" None None ]).
Proof.
  destruct (transitions_without_key (list Transport.Request)
              (Mock.recording
                 (Transport.Responded
                    (Mock.ok_with (JObj [("expand", JStr "transitions")]))))
              string Mock.validate_user Mock.validate_issue
              Mock.validate_transition Mock.py_format
              "PROJ-1" "Done" None None []
              [ Transport.mkRequest "GET" "issue/PROJ-1/transitions" None None ]
              (Mock.ok_with (JObj [("expand", JStr "transitions")]))
              [("expand", JStr "transitions")] eq_refl eq_refl eq_refl)
    as [_ H].
  exact H.
Defined.

Lemma unassign_sends_null_account_witness :
  IssueService.unassign_issue
    (Mock.core_client (Mock.recording (Transport.Responded Mock.no_content)))
    "PROJ-1" []
  = (Ok tt,
     [ Transport.mkRequest "PUT" "issue/PROJ-1/assignee" None
         (Some (JObj [("accountId", JNull)])) ]).
Proof.
  exact (unassign_sends_null_account (list Transport.Request)
           (Mock.recording (Transport.Responded Mock.no_content)) string
           Mock.validate_user Mock.validate_issue Mock.validate_transition
           Mock.py_format "PROJ-1" []
           [ Transport.mkRequest "PUT" "issue/PROJ-1/assignee" None
               (Some (JObj [("accountId", JNull)])) ]
           Mock.no_content (JObj []) eq_refl eq_refl).
Defined.

Lemma get_user_by_email_is_exact_witness :
  exists users a,
    JiraClient.search_users (Mock.client [Mock.jane] []) "JANE@example.com" 1 []
      = (Ok users, [Mock.SearchUsers "JANE@example.com" 1])
    /\ In Mock.jane users
    /\ User.email_address Mock.jane = Some a
    /\ a <> ""
    /\ PyStr.lower a = PyStr.lower "JANE@example.com".
Proof.
  exact (get_user_by_email_is_exact (Mock.client [Mock.jane] [])
           "JANE@example.com" Mock.jane []
           [Mock.SearchUsers "JANE@example.com" 1] eq_refl).
Defined.

Lemma create_issue_without_email_witness :
  IssueService.create_issue (Mock.client [Mock.jane] [])
    "10000" "Test issue" "10001" None None (Some "") None []
  = (Ok "PROJ-1",
     [ Mock.CreateIssue
         (IssueCreate.mk "10000" "Test issue" None "10001" None None None []) ]).
Proof.
  etransitivity.
  - apply (create_issue_without_email (Mock.client [Mock.jane] [])
             "10000" "Test issue" "10001" None None (Some "") None []).
    right. reflexivity.
  - reflexivity.
Defined.

Lemma assign_issue_by_email_resolved_witness :
  IssueService.assign_issue_by_email (Mock.client [Mock.jane] [])
    "PROJ-1" "jane@example.com" []
  = (Ok tt,
     [ Mock.SearchUsers "jane@example.com" 1;
       Mock.AssignIssue "PROJ-1"
         (IssueAssignment.mk (Some "5b10ac8d82e05b22cc7d4ef5")) ]).
Proof.
  etransitivity.
  - apply (assign_issue_by_email_resolved (Mock.client [Mock.jane] [])
             "PROJ-1" "jane@example.com" [Mock.jane] Mock.jane []
             [Mock.SearchUsers "jane@example.com" 1]);
      reflexivity.
  - reflexivity.
Defined.

Lemma get_user_by_identifier_fallback_witness :
  UserLookup.get_user_by_identifier (Mock.client [Mock.jane] [])
    Mock.get_user_refused "jane@example.com" []
  = (Ok (Some Mock.jane), [Mock.SearchUsers "jane@example.com" 1]).
Proof.
  destruct (get_user_by_identifier_fallback (Mock.client [Mock.jane] [])
              Mock.get_user_refused "jane@example.com" [] [])
    as [_ H].
  etransitivity.
  - apply (H (Exceptions.Jira
                (Exceptions.JiraAuthenticationError
                   "Invalid credentials or expired token"))).
    reflexivity.
  - reflexivity.
Defined.

Lemma create_issue_by_type_name_fails_fast_witness :
  IssueByTypeName.create_issue_by_type_name (Mock.client [] [])
    (fun _ => ret (Mock.project "10000"))
    (fun _ name =>
       raise (Exceptions.Jira (Exceptions.JiraValidationError
                ("Issue type '" ++ name ++ "' not found"))))
    "PROJ" "Test issue" "Feature" None None None None []
  = (Raise (Exceptions.Jira (Exceptions.JiraValidationError
              "Issue type 'Feature' not found")), []).
Proof.
  destruct (create_issue_by_type_name_fails_fast (Mock.client [] [])
              (fun _ => ret (Mock.project "10000"))
              (fun _ name =>
                 raise (Exceptions.Jira (Exceptions.JiraValidationError
                          ("Issue type '" ++ name ++ "' not found"))))
              "PROJ" "Test issue" "Feature" None None None None [] [])
    as (_ & H & _).
  apply (H (Mock.project "10000")); reflexivity.
Defined.

(** The example of the specification: [v1] released, [v2] not. *)
Lemma version_filter_partitions_witness :
  ProjectService.get_released_versions
    (Mock.project_client (Ok (Mock.project "10000"))
       [Mock.version "v1" true; Mock.version "v2" false]) "PROJ" []
  = (Ok [Mock.version "v1" true], ["get_project_versions"])
  /\ ProjectService.get_unreleased_versions
       (Mock.project_client (Ok (Mock.project "10000"))
          [Mock.version "v1" true; Mock.version "v2" false]) "PROJ" []
     = (Ok [Mock.version "v2" false], ["get_project_versions"]).
Proof.
  destruct (version_filter_partitions
              (Mock.project_client (Ok (Mock.project "10000"))
                 [Mock.version "v1" true; Mock.version "v2" false])
              "PROJ" [Mock.version "v1" true; Mock.version "v2" false]
              [] ["get_project_versions"] eq_refl)
    as (_ & Hrel & Hunrel & _).
  split; [exact Hrel | exact Hunrel].
Defined.

Lemma get_version_by_name_is_exact_witness :
  exists found,
    ProjectService.get_version_by_name
      (Mock.project_client (Ok (Mock.project "10000"))
         [Mock.version "v1" true; Mock.version "v2" false]) "PROJ" "V1" []
    = (Ok found, ["get_project_versions"])
    /\ (found = None ->
        forall v, In v [Mock.version "v1" true; Mock.version "v2" false] ->
                  ProjectVersion.name v <> "V1").
Proof.
  destruct (get_version_by_name_is_exact
              (Mock.project_client (Ok (Mock.project "10000"))
                 [Mock.version "v1" true; Mock.version "v2" false])
              "PROJ" "V1" [Mock.version "v1" true; Mock.version "v2" false]
              [] ["get_project_versions"] eq_refl)
    as (found & Hcall & _ & Hnone).
  exists found. split; [exact Hcall | exact Hnone].
Defined.

Lemma create_version_fails_fast_witness :
  ProjectService.create_version
    (Mock.project_client (Ok (Mock.project "PROJ-ID")) []) Mock.py_int
    "PROJ" "v3" None None None false false []
  = (Raise (Exceptions.ValueError "invalid literal for int() with base 10"),
     ["get_project"]).
Proof.
  destruct (create_version_fails_fast
              (Mock.project_client (Ok (Mock.project "PROJ-ID")) [])
              Mock.py_int "PROJ" "v3" None None None false false
              [] ["get_project"])
    as (_ & H & _).
  apply (H (Mock.project "PROJ-ID")); reflexivity.
Defined.

Lemma server_update_is_not_atomic_witness :
  Server.update_issue
    Mock.client_without_label_permission
    "PROJ-1" (IssueUpdate.mk (Some "New summary") None ["urgent"] ["old"] None)
    []
  = (Server.HTTPException 403
       "JIRA API Error (403): Insufficient permissions for this operation" [],
     [ Mock.UpdateIssue "PROJ-1"
         (IssueUpdate.mk (Some "New summary") None [] [] None) ]).
Proof.
  etransitivity.
  - apply (server_update_is_not_atomic Mock.client_without_label_permission
             "PROJ-1" "New summary" ["urgent"]
             ["old"]
             (Exceptions.JiraPermissionError
                "Insufficient permissions for this operation")
             []
             [ Mock.UpdateIssue "PROJ-1"
                 (IssueUpdate.mk (Some "New summary") None [] [] None) ]
             [ Mock.UpdateIssue "PROJ-1"
                 (IssueUpdate.mk (Some "New summary") None [] [] None) ]);
      first [reflexivity | discriminate].
  - reflexivity.
Defined.

Lemma server_transition_value_error_escapes_witness :
  Server.transition_issue (Mock.client [] [Mock.start_progress; Mock.done])
    "PROJ-1" "Close" None None []
  = (Server.Uncaught
       (Exceptions.ValueError
          "Transition 'Close' not found. Available transitions: Start Progress, Done"),
     [Mock.GetIssueTransitions "PROJ-1"]).
Proof.
  exact (server_transition_value_error_escapes
           (Mock.client [] [Mock.start_progress; Mock.done])
           "PROJ-1" "Close" None None [Mock.start_progress; Mock.done]
           [] [Mock.GetIssueTransitions "PROJ-1"] eq_refl eq_refl).
Defined.

Lemma server_reports_codeless_errors_as_400_witness :
  Server.search_users
    (Mock.core_client (Mock.replies (Transport.RequestError "timed out")))
    "jane" 50 tt
  = (Server.HTTPException 400 "JIRA API Error: Request failed: timed out" [],
     tt).
Proof.
  destruct (server_reports_codeless_errors_as_400 unit
              (Mock.replies (Transport.RequestError "timed out")) string
              Mock.validate_user Mock.validate_issue Mock.validate_transition
              Mock.py_format "jane" 50 tt tt)
    as [H _].
  apply (H "timed out"). reflexivity.
Defined.

Lemma server_update_ignores_description_and_priority_witness :
  Server.Endpoint.update_issue
    (Mock.get_config (Some (Mock.config "https://example.atlassian.net")))
    (Mock.connect (Mock.client [] [])) Mock.builtin_str Mock.close
    "PROJ-1" (IssueUpdate.mk None (Some "New description") [] [] (Some "2")) []
  = (Server.Returned
       (JObj [("message", JStr "Issue PROJ-1 updated successfully")]), []).
Proof.
  destruct (server_update_ignores_description_and_priority
              (Mock.get_config (Some (Mock.config "https://example.atlassian.net")))
              (Mock.connect (Mock.client [] [])) Mock.builtin_str Mock.close
              "PROJ-1"
              (IssueUpdate.mk None (Some "New description") [] [] (Some "2"))
              [])
    as [_ H].
  rewrite H; reflexivity.
Defined.

(** ** Further worked cases *)

(** Without a configuration the update handler answers with status 500,
    whatever its body asks for, and no call is made. *)
Example update_endpoint_without_configuration :
  Server.Endpoint.update_issue (Mock.get_config None)
    (Mock.connect (Mock.client [] [])) Mock.builtin_str Mock.close
    "PROJ-1" (IssueUpdate.mk (Some "New summary") None ["urgent"] [] None) []
  = (Server.HTTPException 500
       "JIRA configuration not found. Please configure the server with environment variables."
       [], []).
Proof. reflexivity. Qed.

(** A configured base URL without scheme: the validation error of the
    constructor is reported with status 500 and nothing is created. *)
Example create_endpoint_with_bad_base_url :
  Server.Endpoint.create_issue
    (Mock.get_config (Some (Mock.config "example.atlassian.net")))
    (Mock.connect (Mock.client [] [])) Mock.builtin_str Mock.close
    (IssueCreate.mk "10000" "Test issue" None "10001" None (Some "12345") None [])
    []
  = (Server.HTTPException 500
       "Failed to create JIRA client: JIRA API Error (400): Base URL must start with http:// or https://"
       [], []).
Proof. reflexivity. Qed.

(** With a client, the create handler sends the issue without the
    assignee of its body. *)
Example create_endpoint_drops_assignee :
  Server.Endpoint.create_issue
    (Mock.get_config (Some (Mock.config "https://example.atlassian.net")))
    (Mock.connect (Mock.client [] [])) Mock.builtin_str Mock.close
    (IssueCreate.mk "10000" "Test issue" None "10001" None (Some "12345")
       (Some "67890") ["bug"])
    []
  = (Server.Returned "PROJ-1",
     [ Mock.CreateIssue
         (IssueCreate.mk "10000" "Test issue" None "10001" None None None
            ["bug"]) ]).
Proof. reflexivity. Qed.

(** An exception of [urljoin], raised before the [try], leaves
    [_make_request] as it is, and passes the except clause of a handler. *)
Example make_request_passes_on_value_error :
  Transport._make_request unit
    (Mock.replies (Transport.Escaped (Exceptions.ValueError "Invalid IPv6 URL")))
    "GET" "//[" None None tt
  = (Raise (Exceptions.ValueError "Invalid IPv6 URL"), tt)
  /\ Server.search_users
       (Mock.core_client
          (Mock.replies
             (Transport.Escaped (Exceptions.ValueError "Invalid IPv6 URL"))))
       "jane" 50 tt
     = (Server.Uncaught (Exceptions.ValueError "Invalid IPv6 URL"), tt).
Proof. split; reflexivity. Qed.

(** Names are compared after [str.lower()] on both sides, accented
    letters included: a type named with a capital E acute (U+00C9) is
    found by a request spelled with the small one (U+00E9), and so are a
    transition and an address. *)
Example issue_type_found_across_accented_case :
  Transport.get_issue_type_id_by_name unit
    (Mock.replies
       (Transport.Responded
          (Mock.project_response
             [ JObj [("id", JStr "10007");
                     ("name", JStr (String (ascii_of_nat 201) "tude"))] ])))
    "PROJ" (String (ascii_of_nat 233) "TUDE") tt
  = (Ok (JStr "10007"), tt).
Proof. reflexivity. Qed.

Example transition_found_across_accented_case :
  IssueService.transition_issue_by_name
    (Mock.client []
       [ IssueTransition.mk "41" (String (ascii_of_nat 201) "mis")
           (IssueStatus.mk "10002" "Sent" "The issue was sent" None) false ])
    "PROJ-1" (String (ascii_of_nat 233) "MIS") None None []
  = (Ok tt,
     [ Mock.GetIssueTransitions "PROJ-1";
       Mock.TransitionIssue "PROJ-1"
         (IssueTransitionRequest.mk "41" None None) ]).
Proof. reflexivity. Qed.

Example user_found_across_accented_case :
  UserService.get_user_by_email
    (Mock.client
       [ User.mk "5b10ac8d82e05b22cc7d4ef5"
           (Some ("Ren" ++ String (ascii_of_nat 201) "@example.com"))
           "Rene" true None None None ]
       [])
    ("ren" ++ String (ascii_of_nat 233) "@EXAMPLE.com") []
  = (Ok (Some (User.mk "5b10ac8d82e05b22cc7d4ef5"
                 (Some ("Ren" ++ String (ascii_of_nat 201) "@example.com"))
                 "Rene" true None None None)),
     [ Mock.SearchUsers ("ren" ++ String (ascii_of_nat 233) "@EXAMPLE.com") 1 ]).
Proof. reflexivity. Qed.
